(** * Gateway resilience and orchestration layer: a shallow embedding

    The flight-booking system is made of a gateway ([gateway/main.py]), three
    typed REST clients ([services.py]) and three record-keeping collaborators
    (flights, tickets, loyalty ledger).  The development below embeds

    - the collaborators as pure handlers over their relational tables,
    - the network as an explicit request log plus a schedule of faults,
    - the clients and the gateway handlers as programs of a state-and-exception
      monad over one [World], in which side effects survive a raised
      exception (nothing is rolled back when a saga step fails).

    Python integers are [Z], [uuid.UUID] values are [N], wall-clock instants
    ([time.time()], [datetime.now()]) are rationals, SQL tables are lists in
    row order (so that [.first()] is the first match), and the breaker
    registry is a finite map from service names to breaker states. *)

From Stdlib Require Import ZArith QArith Bool Lia.
From stdpp Require Import gmap strings list.

Local Open Scope string_scope.
Local Open Scope Z_scope.

(** ** Data model ([common.py]) *)

Definition UUID := N.
Definition Time := Q.

Record Ticket := mkTicket {
  t_id : Z;
  t_ticket_uid : UUID;
  t_username : string;
  t_flight_number : string;
  t_price : Z;
  t_status : string
}.

Record Airport := mkAirport {
  a_id : Z;
  a_name : string;
  a_city : string;
  a_country : string
}.

Record Flight := mkFlight {
  f_id : Z;
  f_flight_number : string;
  f_datetime : Time;
  f_from_airport_id : Z;
  f_to_airport_id : Z;
  f_price : Z
}.

Record Privilege := mkPrivilege {
  p_id : Z;
  p_username : string;
  p_status : string;
  p_balance : Z
}.

Record PrivilegeHistory := mkPrivilegeHistory {
  h_id : Z;
  h_privilege_id : Z;
  h_ticket_uid : UUID;
  h_datetime : Time;
  h_balance_diff : Z;
  h_operation_type : string
}.

Inductive TicketStatus := PAID | CANCELED.
Inductive PrivilegeStatus := BRONZE | SILVER | GOLD.
Inductive OperationType := FILL_IN_BALANCE | DEBIT_THE_ACCOUNT.

Record FlightResponse := mkFlightResponse {
  fr_flightNumber : string;
  fr_fromAirport : string;
  fr_toAirport : string;
  fr_date : Time;
  fr_price : Z
}.

Record PaginationResponse := mkPaginationResponse {
  pg_page : Z;
  pg_pageSize : Z;
  pg_totalElements : Z;
  pg_items : list FlightResponse
}.

Record TicketResponse := mkTicketResponse {
  tr_ticketUid : UUID;
  tr_flightNumber : string;
  tr_fromAirport : string;
  tr_toAirport : string;
  tr_date : Time;
  tr_price : Z;
  tr_status : TicketStatus
}.

Record TicketPurchaseRequest := mkTicketPurchaseRequest {
  flightNumber : string;
  price : Z;
  paidFromBalance : bool
}.

Record PrivilegeShortInfo := mkPrivilegeShortInfo {
  psi_balance : Z;
  psi_status : PrivilegeStatus
}.

Record TicketPurchaseResponse := mkTicketPurchaseResponse {
  pr_ticketUid : UUID;
  pr_flightNumber : string;
  pr_fromAirport : string;
  pr_toAirport : string;
  pr_date : Time;
  pr_price : Z;
  pr_paidByMoney : Z;
  pr_paidByBonuses : Z;
  pr_status : TicketStatus;
  pr_privilege : PrivilegeShortInfo
}.

Record TicketCreateRequest := mkTicketCreateRequest {
  tc_ticketUid : UUID;
  tc_username : string;
  tc_flightNumber : string;
  tc_price : Z
}.

Record AddTransactionRequest := mkAddTransactionRequest {
  at_privilege_id : Z;
  at_ticket_uid : UUID;
  at_datetime : Time;
  at_balance_diff : Z;
  at_operation_type : string
}.

Record UserInfoResponse := mkUserInfoResponse {
  ui_tickets : list TicketResponse;
  ui_privilege : PrivilegeShortInfo
}.

Record ErrorDescription := mkErrorDescription {
  ed_field : string;
  ed_error : string
}.

(** The string-valued enumerations: a pydantic field of an [Enum] type
    accepts exactly the enumeration's values. *)

Definition parse_TicketStatus (s : string) : option TicketStatus :=
  if String.eqb s "PAID" then Some PAID
  else if String.eqb s "CANCELED" then Some CANCELED
  else None.

Definition parse_PrivilegeStatus (s : string) : option PrivilegeStatus :=
  if String.eqb s "BRONZE" then Some BRONZE
  else if String.eqb s "SILVER" then Some SILVER
  else if String.eqb s "GOLD" then Some GOLD
  else None.

Definition parse_OperationType (s : string) : option OperationType :=
  if String.eqb s "FILL_IN_BALANCE" then Some FILL_IN_BALANCE
  else if String.eqb s "DEBIT_THE_ACCOUNT" then Some DEBIT_THE_ACCOUNT
  else None.

(** ** HTTP vocabulary *)

(** What a collaborator's handler produces: a success status with a body, or
    [raise HTTPException(status_code, detail)]. *)
Inductive Http (A : Type) :=
| Success (status_code : Z) (body : A)
| HTTPException (status_code : Z) (detail : string).
Arguments Success {A} status_code body.
Arguments HTTPException {A} status_code detail.

(** What [requests.get/post/delete] hands back to a client. *)
Inductive NetResult (A : Type) :=
| Response (status_code : Z) (json : option A)
| ConnectionFailed.
Arguments Response {A} status_code json.
Arguments ConnectionFailed {A}.

(** Every HTTP request a client can put on the wire. *)
Inductive Request :=
| GET_flights (page size : option Z)
| GET_flight (flight_number : string)
| GET_tickets_user (username : string)
| GET_ticket (ticket_uid : UUID)
| POST_ticket (body : TicketCreateRequest)
| DELETE_ticket (ticket_uid : UUID)
| GET_privilege (username : string)
| GET_privilege_history (username : string)
| GET_privilege_history_entry (username : string) (ticket_uid : UUID)
| POST_privilege_history (username : string) (body : AddTransactionRequest)
| DELETE_privilege_history_entry (username : string) (ticket_uid : UUID).

(** The outcome the environment has scheduled for a request. *)
Inductive Fault := Healthy | Unreachable | InternalError.

(** Python exceptions that can cross the modelled code. *)
Inductive Exn :=
| CircuitOpenException (service : string)
| HTTPError (status_code : Z)
| ConnectionError
| ValidationError
| AttributeError (name : string)
| TypeError.

Inductive Res (A : Type) :=
| Ok (a : A)
| Raise (e : Exn).
Arguments Ok {A} a.
Arguments Raise {A} e.

(** ** Collaborator: tickets store ([tickets/main.py]) *)

Module TicketsApp.

Record Db := mkDb {
  rows : list Ticket;
  next_id : Z
}.

Definition first_by_uid (ticket_uid : UUID) (db : Db) : option Ticket :=
  List.find (fun r => N.eqb (t_ticket_uid r) ticket_uid) (rows db).

Definition get_user_tickets (username : string) (db : Db)
  : Http (list Ticket) * Db :=
  (Success 200 (List.filter (fun r => String.eqb (t_username r) username) (rows db)), db).

Definition get_ticket_details (ticket_uid : UUID) (db : Db) : Http Ticket * Db :=
  match first_by_uid ticket_uid db with
  | None => (HTTPException 404 "Ticket not found", db)
  | Some ticket_record => (Success 200 ticket_record, db)
  end.

Definition create_new_ticket (request : TicketCreateRequest) (db : Db)
  : Http unit * Db :=
  match first_by_uid (tc_ticketUid request) db with
  | Some _ => (HTTPException 403 "Ticket with this UUID already exists", db)
  | None =>
      let ticket_entry :=
        mkTicket (next_id db) (tc_ticketUid request) (tc_username request)
                 (tc_flightNumber request) (tc_price request) "PAID" in
      (Success 201 tt, mkDb (rows db ++ [ticket_entry]) (next_id db + 1))
  end.

Definition remove_ticket (ticket_uid : UUID) (db : Db) : Http unit * Db :=
  match first_by_uid ticket_uid db with
  | None => (HTTPException 404 "Ticket not found", db)
  | Some ticket_record =>
      (Success 204 tt,
       mkDb (List.filter (fun r => negb (Z.eqb (t_id r) (t_id ticket_record))) (rows db))
            (next_id db))
  end.

End TicketsApp.

(** ** Collaborator: flights catalog ([flights/main.py]) *)

Module FlightsApp.

Record Db := mkDb {
  airports : list Airport;
  flights : list Flight
}.

Definition airport_by_id (i : Z) (db : Db) : option Airport :=
  List.find (fun a => Z.eqb (a_id a) i) (airports db).

(** [None] stands for the failure of dereferencing a dangling airport
    relationship. *)
Definition flight_to_response (db : Db) (flight_record : Flight)
  : option FlightResponse :=
  match airport_by_id (f_from_airport_id flight_record) db,
        airport_by_id (f_to_airport_id flight_record) db with
  | Some dep, Some arr =>
      Some (mkFlightResponse (f_flight_number flight_record)
              (String.append (a_city dep) (String.append " " (a_name dep)))
              (String.append (a_city arr) (String.append " " (a_name arr)))
              (f_datetime flight_record)
              (f_price flight_record))
  | _, _ => None
  end.

Fixpoint all_responses (db : Db) (l : list Flight) : option (list FlightResponse) :=
  match l with
  | [] => Some []
  | x :: r =>
      match flight_to_response db x, all_responses db r with
      | Some y, Some ys => Some (y :: ys)
      | _, _ => None
      end
  end.

(** The gateway sends [page] and [size]; the handler reads [page] and
    [page_size], so [size] is ignored and [page_size] keeps its default. *)
Definition get_all_flights (page size : option Z) (db : Db)
  : Http PaginationResponse * Db :=
  let page := default 1 page in
  let page_size := 10 in
  if page <? 1 then (HTTPException 422 "page", db)
  else
    let offset_value := (page - 1) * page_size in
    let total_count := Z.of_nat (length (flights db)) in
    let flight_records :=
      firstn (Z.to_nat page_size) (skipn (Z.to_nat offset_value) (flights db)) in
    match all_responses db flight_records with
    | None => (HTTPException 500 "Internal Server Error", db)
    | Some response_items =>
        (Success 200 (mkPaginationResponse page page_size total_count response_items), db)
    end.

Definition get_flight_by_number (flight_number : string) (db : Db)
  : Http FlightResponse * Db :=
  match List.find (fun f => String.eqb (f_flight_number f) flight_number) (flights db) with
  | None => (HTTPException 404 "Flight not found", db)
  | Some flight_record =>
      match flight_to_response db flight_record with
      | None => (HTTPException 500 "Internal Server Error", db)
      | Some r => (Success 200 r, db)
      end
  end.

End FlightsApp.

(** ** Collaborator: loyalty ledger (bonus service)

    The repository's bonus service ([bonus/main.py]) is known here through
    its client and its tests only.  Its handlers are modelled from the
    specification's data model (section 3) and the REST contract exercised by
    [bonus/test.py]. *)

Module BonusApp.

(** Modelled from the spec: the two tables of the missing bonus service,
    accounts (one per username) and ledger entries, with the next primary
    key of the ledger. *)
Record Db := mkDb {
  accounts : list Privilege;
  history : list PrivilegeHistory;
  next_id : Z
}.

(** Modelled from the spec: the account of a username in the missing bonus
    service's table. *)
Definition account_by_username (username : string) (db : Db) : option Privilege :=
  List.find (fun a => String.eqb (p_username a) username) (accounts db).

(** Modelled from the spec: the ledger entry of an account that is tied to
    a ticket identifier (the missing bonus service's lookup). *)
Definition entry_of (account : Privilege) (ticket_uid : UUID) (db : Db)
  : option PrivilegeHistory :=
  List.find (fun h => Z.eqb (h_privilege_id h) (p_id account)
                      && N.eqb (h_ticket_uid h) ticket_uid) (history db).

(** Modelled from the spec: the signed effect of a ledger entry on the
    balance; FILL_IN_BALANCE increases the balance by [balance_diff],
    DEBIT_THE_ACCOUNT decreases it (the bonus service's code is missing). *)
Definition signed_diff (op : OperationType) (balance_diff : Z) : Z :=
  match op with
  | FILL_IN_BALANCE => balance_diff
  | DEBIT_THE_ACCOUNT => - balance_diff
  end.

(** Modelled from the spec: the balance update of the missing bonus
    service; the balance of one account moves by [delta]. *)
Definition adjust_balance (account_id : Z) (delta : Z) (l : list Privilege)
  : list Privilege :=
  List.map (fun a =>
              if Z.eqb (p_id a) account_id
              then mkPrivilege (p_id a) (p_username a) (p_status a) (p_balance a + delta)
              else a) l.

(** Modelled from the spec: account lookup by username of the missing bonus
    service; one account per username, 404 when there is none. *)
Definition get_privilege (username : string) (db : Db) : Http Privilege * Db :=
  match account_by_username username db with
  | None => (HTTPException 404 "Privilege not found", db)
  | Some account => (Success 200 account, db)
  end.

(** Modelled from the spec: ledger listing of the missing bonus service; the
    entries of the caller's account, in ledger order. *)
Definition get_privilege_history (username : string) (db : Db)
  : Http (list PrivilegeHistory) * Db :=
  match account_by_username username db with
  | None => (HTTPException 404 "Privilege not found", db)
  | Some account =>
      (Success 200
         (List.filter (fun h => Z.eqb (h_privilege_id h) (p_id account)) (history db)), db)
  end.

(** Modelled from the spec: ledger-entry lookup by ticket identifier of the
    missing bonus service; 404 when the account or the entry is absent. *)
Definition get_privilege_transaction (username : string) (ticket_uid : UUID) (db : Db)
  : Http PrivilegeHistory * Db :=
  match account_by_username username db with
  | None => (HTTPException 404 "Privilege not found", db)
  | Some account =>
      match entry_of account ticket_uid db with
      | None => (HTTPException 404 "Transaction not found", db)
      | Some entry => (Success 200 entry, db)
      end
  end.

(** Modelled from the spec: ledger append of the missing bonus service; an
    unknown operation type is a validation fault, otherwise the entry is
    appended and the balance moves by its signed amount. *)
Definition add_transaction (username : string) (request : AddTransactionRequest) (db : Db)
  : Http unit * Db :=
  match account_by_username username db with
  | None => (HTTPException 404 "Privilege not found", db)
  | Some account =>
      match parse_OperationType (at_operation_type request) with
      | None => (HTTPException 400 "Unknown operation type", db)
      | Some op =>
          let entry :=
            mkPrivilegeHistory (next_id db) (p_id account) (at_ticket_uid request)
              (at_datetime request) (at_balance_diff request)
              (at_operation_type request) in
          (Success 201 tt,
           mkDb (adjust_balance (p_id account) (signed_diff op (at_balance_diff request))
                   (accounts db))
                (history db ++ [entry])
                (next_id db + 1))
      end
  end.

(** Modelled from the spec: ledger delete of the missing bonus service; it
    removes the one entry tied to the ticket identifier and takes its signed
    amount back out of the balance; 404 when there is no such entry. *)
Definition remove_transaction (username : string) (ticket_uid : UUID) (db : Db)
  : Http unit * Db :=
  match account_by_username username db with
  | None => (HTTPException 404 "Privilege not found", db)
  | Some account =>
      match entry_of account ticket_uid db with
      | None => (HTTPException 404 "Transaction not found", db)
      | Some entry =>
          let delta :=
            match parse_OperationType (h_operation_type entry) with
            | Some op => - signed_diff op (h_balance_diff entry)
            | None => 0
            end in
          (Success 204 tt,
           mkDb (adjust_balance (p_id account) delta (accounts db))
                (List.filter (fun h => negb (Z.eqb (h_id h) (h_id entry))) (history db))
                (next_id db))
      end
  end.

End BonusApp.

(** ** Circuit breaker state *)

(** Modelled from the spec: the three states of the missing class
    [CircuitBreaker] (section 4.1). *)
Inductive BreakerState := CLOSED | OPEN | HALF_OPEN.

(** Modelled from the spec: CircuitBreakerState of section 3, the fields of
    the missing class [CircuitBreaker]. *)
Record CircuitBreaker := mkCircuitBreaker {
  service_name : string;
  state : BreakerState;
  failure_count : Z;
  last_failure_time : Time;
  failure_threshold : Z;
  recovery_timeout : Time
}.

(** ** The world a gateway request runs in *)

Record World := mkWorld {
  clock : Time;                          (* what time.time() reads *)
  uuid_gen : nat -> UUID;                (* the values uuid.uuid4() will draw *)
  uuid_drawn : nat;
  faults : list Fault;                   (* outcome of the next requests *)
  net_log : list Request;                (* requests put on the wire, oldest first *)
  breakers : gmap string CircuitBreaker; (* one breaker per service name *)
  flights_db : FlightsApp.Db;
  tickets_db : TicketsApp.Db;
  bonus_db : BonusApp.Db
}.

Definition with_clock (x : Time) (w : World) : World :=
  mkWorld x (uuid_gen w) (uuid_drawn w) (faults w) (net_log w) (breakers w)
          (flights_db w) (tickets_db w) (bonus_db w).
Definition with_uuid_drawn (x : nat) (w : World) : World :=
  mkWorld (clock w) (uuid_gen w) x (faults w) (net_log w) (breakers w)
          (flights_db w) (tickets_db w) (bonus_db w).
Definition with_faults (x : list Fault) (w : World) : World :=
  mkWorld (clock w) (uuid_gen w) (uuid_drawn w) x (net_log w) (breakers w)
          (flights_db w) (tickets_db w) (bonus_db w).
Definition with_net_log (x : list Request) (w : World) : World :=
  mkWorld (clock w) (uuid_gen w) (uuid_drawn w) (faults w) x (breakers w)
          (flights_db w) (tickets_db w) (bonus_db w).
Definition with_breakers (x : gmap string CircuitBreaker) (w : World) : World :=
  mkWorld (clock w) (uuid_gen w) (uuid_drawn w) (faults w) (net_log w) x
          (flights_db w) (tickets_db w) (bonus_db w).
Definition with_flights_db (x : FlightsApp.Db) (w : World) : World :=
  mkWorld (clock w) (uuid_gen w) (uuid_drawn w) (faults w) (net_log w) (breakers w)
          x (tickets_db w) (bonus_db w).
Definition with_tickets_db (x : TicketsApp.Db) (w : World) : World :=
  mkWorld (clock w) (uuid_gen w) (uuid_drawn w) (faults w) (net_log w) (breakers w)
          (flights_db w) x (bonus_db w).
Definition with_bonus_db (x : BonusApp.Db) (w : World) : World :=
  mkWorld (clock w) (uuid_gen w) (uuid_drawn w) (faults w) (net_log w) (breakers w)
          (flights_db w) (tickets_db w) x.

(** ** The effect monad: state plus exceptions, state kept on a raise *)

Definition M (A : Type) : Type := World -> Res A * World.

Definition ret {A} (a : A) : M A := fun w => (Ok a, w).
Definition raise {A} (e : Exn) : M A := fun w => (Raise e, w).
Definition bind {A B} (m : M A) (k : A -> M B) : M B :=
  fun w =>
    match m w with
    | (Ok a, w') => k a w'
    | (Raise e, w') => (Raise e, w')
    end.

(** [try: m except CircuitOpenException: h] *)
Definition try_except_circuit_open {A} (m : M A) (h : M A) : M A :=
  fun w =>
    match m w with
    | (Raise (CircuitOpenException _), w') => h w'
    | r => r
    end.

Declare Scope prog_scope.
Delimit Scope prog_scope with prog.
Notation "x <- m ;; k" := (bind m (fun x => k))
  (at level 100, m at next level, k at level 200, right associativity) : prog_scope.
Notation "m ;;; k" := (bind m (fun _ => k))
  (at level 100, k at level 200, right associativity) : prog_scope.
Local Open Scope prog_scope.

(** ** The network *)

Definition on_flights {A} (h : FlightsApp.Db -> Http A * FlightsApp.Db)
  : World -> Http A * World :=
  fun w => let (r, db) := h (flights_db w) in (r, with_flights_db db w).
Definition on_tickets {A} (h : TicketsApp.Db -> Http A * TicketsApp.Db)
  : World -> Http A * World :=
  fun w => let (r, db) := h (tickets_db w) in (r, with_tickets_db db w).
Definition on_bonus {A} (h : BonusApp.Db -> Http A * BonusApp.Db)
  : World -> Http A * World :=
  fun w => let (r, db) := h (bonus_db w) in (r, with_bonus_db db w).

Definition deliver {A} (handler : World -> Http A * World) (w : World)
  : NetResult A * World :=
  match handler w with
  | (Success status_code body, w') => (Response status_code (Some body), w')
  | (HTTPException status_code _, w') => (Response status_code None, w')
  end.

(** One network attempt: the request is logged, the next scheduled fault is
    consumed, and unless it strikes the collaborator's handler runs. *)
Definition send {A} (req : Request) (handler : World -> Http A * World) (w : World)
  : NetResult A * World :=
  let w1 := with_net_log (net_log w ++ [req]) w in
  match faults w1 with
  | [] => deliver handler w1
  | Healthy :: rest => deliver handler (with_faults rest w1)
  | Unreachable :: rest => (ConnectionFailed, with_faults rest w1)
  | InternalError :: rest => (Response 500 None, with_faults rest w1)
  end.

(** [requests.get / requests.post / requests.delete] *)
Definition requests {A} (req : Request) (handler : World -> Http A * World)
  : M (Z * option A) :=
  fun w =>
    match send req handler w with
    | (Response status_code json, w') => (Ok (status_code, json), w')
    | (ConnectionFailed, w') => (Raise ConnectionError, w')
    end.

(** [response.raise_for_status()] *)
Definition raise_for_status (status_code : Z) : M unit :=
  if 400 <=? status_code then raise (HTTPError status_code) else ret tt.

(** [Model.model_validate(response.json())] *)
Definition model_validate {A} (json : option A) : M A :=
  match json with
  | Some a => ret a
  | None => raise ValidationError
  end.

(** ** Circuit breaker

    [services.py] imports [CircuitBreaker] and [CircuitOpenException] from
    the repository's module [circuit_breaker], which is known here through
    that use only.  Its state machine is modelled from section 4.1 of the
    specification. *)

Definition set_state (s : BreakerState) (cb : CircuitBreaker) : CircuitBreaker :=
  mkCircuitBreaker (service_name cb) s (failure_count cb) (last_failure_time cb)
                   (failure_threshold cb) (recovery_timeout cb).
Definition set_failure_count (n : Z) (cb : CircuitBreaker) : CircuitBreaker :=
  mkCircuitBreaker (service_name cb) (state cb) n (last_failure_time cb)
                   (failure_threshold cb) (recovery_timeout cb).
Definition set_last_failure_time (t : Time) (cb : CircuitBreaker) : CircuitBreaker :=
  mkCircuitBreaker (service_name cb) (state cb) (failure_count cb) t
                   (failure_threshold cb) (recovery_timeout cb).

(** Modelled from the spec: the constructor of the missing class
    [CircuitBreaker]; a new breaker is CLOSED with no failure on record. *)
Definition CircuitBreaker_init (service : string) (failure_threshold : Z)
    (recovery_timeout : Time) : CircuitBreaker :=
  mkCircuitBreaker service CLOSED 0 0%Q failure_threshold recovery_timeout.

(** Modelled from the spec: the gate of the missing [CircuitBreaker.call];
    an OPEN breaker rejects the call unless [now - last_failure_timestamp >=
    recovery_timeout], in which case it turns HALF_OPEN and lets a trial
    through; CLOSED and HALF_OPEN let the call through. *)
Definition allow_call (now : Time) (cb : CircuitBreaker) : option CircuitBreaker :=
  match state cb with
  | OPEN =>
      if Qle_bool (recovery_timeout cb) (now - last_failure_time cb)
      then Some (set_state HALF_OPEN cb)
      else None
  | CLOSED | HALF_OPEN => Some cb
  end.

(** Modelled from the spec: success bookkeeping of the missing
    [CircuitBreaker.call]; the breaker is CLOSED and the failure count 0. *)
Definition on_success (cb : CircuitBreaker) : CircuitBreaker :=
  set_failure_count 0 (set_state CLOSED cb).

(** Modelled from the spec: failure bookkeeping of the missing
    [CircuitBreaker.call]; a failed HALF_OPEN trial reopens the breaker with
    the timer reset to now, a failure while CLOSED increments the count and
    opens the breaker once the count reaches the threshold. *)
Definition on_failure (now : Time) (cb : CircuitBreaker) : CircuitBreaker :=
  match state cb with
  | HALF_OPEN => set_last_failure_time now (set_state OPEN cb)
  | CLOSED | OPEN =>
      let n := failure_count cb + 1 in
      if failure_threshold cb <=? n
      then set_last_failure_time now (set_state OPEN (set_failure_count n cb))
      else set_failure_count n cb
  end.

(** Modelled from the spec: the registry of the missing [circuit_breaker]
    module; one breaker per service name, created on the first protected
    call. *)
Definition breaker_of (fresh : CircuitBreaker) (w : World) : CircuitBreaker :=
  default fresh (breakers w !! service_name fresh).

(** Modelled from the spec: writing a breaker's new state back to the
    registry of the missing [circuit_breaker] module. *)
Definition store_breaker (cb : CircuitBreaker) (w : World) : World :=
  with_breakers (<[service_name cb := cb]> (breakers w)) w.

(** Modelled from the spec: the missing [CircuitBreaker.call(fn, *args)];
    a rejected call raises [CircuitOpenException(service)] without running
    the operation, a call that is let through runs it, records the outcome
    and lets a failure propagate. *)
Definition CircuitBreaker_call {A} (fresh : CircuitBreaker) (fn : M A) : M A :=
  fun w =>
    match allow_call (clock w) (breaker_of fresh w) with
    | None => (Raise (CircuitOpenException (service_name fresh)), w)
    | Some cb =>
        let w1 := store_breaker cb w in
        match fn w1 with
        | (Ok a, w2) => (Ok a, store_breaker (on_success (breaker_of cb w2)) w2)
        | (Raise e, w2) =>
            (Raise e, store_breaker (on_failure (clock w2) (breaker_of cb w2)) w2)
        end
    end.

(** ** Service clients ([services.py]) *)

Definition wrap_cb {A} (service : string) (fn : M A) : M A :=
  CircuitBreaker_call (CircuitBreaker_init service 1 1%Q) fn.

Module FlightsService.

Definition NAME := "Flights Service".

Definition get_all_flights_fn (page size : option Z)
  : M PaginationResponse :=
  response <- requests (GET_flights page size)
                (on_flights (FlightsApp.get_all_flights page size)) ;;
  raise_for_status (fst response) ;;;
  model_validate (snd response).

Definition get_all_flights (page size : option Z)
  : M PaginationResponse :=
  wrap_cb NAME (get_all_flights_fn page size).

Definition get_flight_by_number_fn (flight_number : string)
  : M FlightResponse :=
  response <- requests (GET_flight flight_number)
                (on_flights (FlightsApp.get_flight_by_number flight_number)) ;;
  raise_for_status (fst response) ;;;
  model_validate (snd response).

Definition get_flight_by_number (flight_number : string)
  : M FlightResponse :=
  wrap_cb NAME (get_flight_by_number_fn flight_number).

(** [datetime.fromordinal(1)], in seconds relative to the Unix epoch. *)
Definition datetime_fromordinal_1 : Time := inject_Z (-62135596800).

Definition get_flight_by_number_or_default (flight_number : string) : M FlightResponse :=
  try_except_circuit_open
    (get_flight_by_number flight_number)
    (ret (mkFlightResponse "XXX" "XXX" "XXX" datetime_fromordinal_1 0)).

End FlightsService.

Module TicketsService.

Definition NAME := "Ticket Service".

Definition get_user_tickets_fn (username : string)
  : M (list Ticket) :=
  response <- requests (GET_tickets_user username)
                (on_tickets (TicketsApp.get_user_tickets username)) ;;
  raise_for_status (fst response) ;;;
  model_validate (snd response).

Definition get_user_tickets (username : string)
  : M (list Ticket) :=
  wrap_cb NAME (get_user_tickets_fn username).

Definition get_ticket_by_uid_fn (ticket_uid : UUID)
  : M (option Ticket) :=
  response <- requests (GET_ticket ticket_uid)
                (on_tickets (TicketsApp.get_ticket_details ticket_uid)) ;;
  if fst response =? 404 then ret None
  else
    raise_for_status (fst response) ;;;
    ticket <- model_validate (snd response) ;;
    ret (Some ticket).

Definition get_ticket_by_uid (ticket_uid : UUID)
  : M (option Ticket) :=
  wrap_cb NAME (get_ticket_by_uid_fn ticket_uid).

Definition remove_ticket (ticket_uid : UUID) : M unit :=
  response <- requests (DELETE_ticket ticket_uid)
                (on_tickets (TicketsApp.remove_ticket ticket_uid)) ;;
  raise_for_status (fst response).

Definition create_new_ticket (ticket_uid : UUID) (username flight_number : string)
    (price : Z) : M unit :=
  let ticket_data := mkTicketCreateRequest ticket_uid username flight_number price in
  response <- requests (POST_ticket ticket_data)
                (on_tickets (TicketsApp.create_new_ticket ticket_data)) ;;
  raise_for_status (fst response).

End TicketsService.

Module PrivilegesService.

Definition NAME := "Bonus Service".

Definition get_user_privilege_fn (username : string)
  : M (option Privilege) :=
  response <- requests (GET_privilege username)
                (on_bonus (BonusApp.get_privilege username)) ;;
  if fst response =? 404 then ret None
  else
    raise_for_status (fst response) ;;;
    account <- model_validate (snd response) ;;
    ret (Some account).

Definition get_user_privilege (username : string)
  : M (option Privilege) :=
  wrap_cb NAME (get_user_privilege_fn username).

Definition get_user_privilege_history_fn (username : string)
  : M (list PrivilegeHistory) :=
  response <- requests (GET_privilege_history username)
                (on_bonus (BonusApp.get_privilege_history username)) ;;
  raise_for_status (fst response) ;;;
  model_validate (snd response).

Definition get_user_privilege_history (username : string)
  : M (list PrivilegeHistory) :=
  wrap_cb NAME (get_user_privilege_history_fn username).

Definition get_user_privilege_transaction_fn (username : string) (ticket_uid : UUID)
  : M (option PrivilegeHistory) :=
  response <- requests (GET_privilege_history_entry username ticket_uid)
                (on_bonus (BonusApp.get_privilege_transaction username ticket_uid)) ;;
  if fst response =? 404 then ret None
  else
    raise_for_status (fst response) ;;;
    entry <- model_validate (snd response) ;;
    ret (Some entry).

Definition get_user_privilege_transaction (username : string) (ticket_uid : UUID)
  : M (option PrivilegeHistory) :=
  wrap_cb NAME (get_user_privilege_transaction_fn username ticket_uid).

Definition add_privilege_transaction (username : string)
    (transaction_data : AddTransactionRequest) : M unit :=
  response <- requests (POST_privilege_history username transaction_data)
                (on_bonus (BonusApp.add_transaction username transaction_data)) ;;
  raise_for_status (fst response).

Definition revert_transaction (username : string) (ticket_uid : UUID) : M unit :=
  response <- requests (DELETE_privilege_history_entry username ticket_uid)
                (on_bonus (BonusApp.remove_transaction username ticket_uid)) ;;
  raise_for_status (fst response).

(** Attribute lookup on a [PrivilegesService] instance followed by a call
    with the two positional arguments [(username, ticket_uid)]; the result
    is the truthiness of what the call returns.  A name the class does not
    define raises [AttributeError]; a method of another arity raises
    [TypeError]; [add_privilege_transaction] would fail on
    [ticket_uid.model_dump]. *)
Definition getattr_call (name : string) (username : string) (ticket_uid : UUID)
  : M bool :=
  if String.eqb name "get_user_privilege_transaction" then
    r <- get_user_privilege_transaction username ticket_uid ;;
    ret (match r with Some _ => true | None => false end)
  else if String.eqb name "revert_transaction" then
    revert_transaction username ticket_uid ;;; ret false
  else if String.eqb name "add_privilege_transaction" then
    raise (AttributeError "model_dump")
  else if String.eqb name "health_check"
          || String.eqb name "get_user_privilege"
          || String.eqb name "get_user_privilege_history"
          || String.eqb name "NAME"
          || String.eqb name "base_url" then
    raise TypeError
  else raise (AttributeError name).

End PrivilegesService.

(** ** Gateway ([gateway/main.py]) *)

Module Gateway.

(** What an endpoint hands to the framework: a response model, or the
    [JSONResponse] built by [create_error_response]. *)
Inductive Reply (A : Type) :=
| Returned (a : A)
| JSONResponse (message : string) (status_code : Z).
Arguments Returned {A} a.
Arguments JSONResponse {A} message status_code.

Definition create_error_response {A} (message : string) (status_code : Z) : Reply A :=
  JSONResponse message status_code.

Inductive PurchaseReply :=
| Purchased (r : TicketPurchaseResponse)
| ValidationErrorResponse (message : string) (errors : list ErrorDescription).

(** [datetime.now()] and [time.time()] read the same clock. *)
Definition time_time : M Time := fun w => (Ok (clock w), w).
Definition datetime_now : M Time := time_time.

(** [time.sleep(interval)] *)
Definition time_sleep (interval : Time) : M unit :=
  fun w => (Ok tt, with_clock (clock w + interval)%Q w).

(** [uuid.uuid4()] *)
Definition uuid4 : M UUID :=
  fun w => (Ok (uuid_gen w (uuid_drawn w)), with_uuid_drawn (S (uuid_drawn w)) w).

(** A pydantic model instance defines neither [__bool__] nor [__len__]:
    [not x] is false for every instance. *)
Definition truthy {A} (x : A) : bool := true.

(** Constructors of the response models, with the validation pydantic runs
    on construction. *)

Definition TicketResponse_init (ticketUid : UUID) (flightNumber fromAirport toAirport : string)
    (date : Time) (price : Z) (status : string) : M TicketResponse :=
  match parse_TicketStatus status with
  | Some st => ret (mkTicketResponse ticketUid flightNumber fromAirport toAirport date price st)
  | None => raise ValidationError
  end.

Definition PrivilegeShortInfo_init (balance : Z) (status : string) : M PrivilegeShortInfo :=
  match parse_PrivilegeStatus status with
  | Some st => ret (mkPrivilegeShortInfo balance st)
  | None => raise ValidationError
  end.

(** The values the gateway passes for the field
    [privilege: PrivilegeShortInfo] of [UserInfoResponse]. *)
Inductive PrivilegeArg :=
| PyStr (s : string)
| PyPrivilegeShortInfo (p : PrivilegeShortInfo).

(** A string is not an input pydantic accepts for a field whose type is the
    model [PrivilegeShortInfo]. *)
Definition UserInfoResponse_init (tickets : list TicketResponse) (privilege : PrivilegeArg)
  : M UserInfoResponse :=
  match privilege with
  | PyPrivilegeShortInfo p => ret (mkUserInfoResponse tickets p)
  | PyStr _ => raise ValidationError
  end.

Definition convert_ticket_to_response (ticket_data : Ticket) : M TicketResponse :=
  flight_details <- FlightsService.get_flight_by_number (t_flight_number ticket_data) ;;
  TicketResponse_init (t_ticket_uid ticket_data) (t_flight_number ticket_data)
    (fr_fromAirport flight_details) (fr_toAirport flight_details)
    (fr_date flight_details) (t_price ticket_data) (t_status ticket_data).

(** [for ticket in user_tickets: formatted.append(convert_ticket_to_response(ticket))] *)
Fixpoint convert_all (user_tickets : list Ticket) : M (list TicketResponse) :=
  match user_tickets with
  | [] => ret []
  | ticket :: rest =>
      r <- convert_ticket_to_response ticket ;;
      rs <- convert_all rest ;;
      ret (r :: rs)
  end.

(** GET /me *)
Definition get_current_user_profile (x_user_name : string) : M (Reply UserInfoResponse) :=
  first <- try_except_circuit_open
             (user_privilege <- PrivilegesService.get_user_privilege x_user_name ;;
              match user_privilege with
              | None => ret (inl (create_error_response "User account not found" 404))
              | Some p => ret (inr (Some p))
              end)
             (ret (inr None)) ;;
  match first with
  | inl early => ret early
  | inr user_privilege =>
      formatted_tickets <- try_except_circuit_open
                             (user_tickets <- TicketsService.get_user_tickets x_user_name ;;
                              convert_all user_tickets)
                             (ret []) ;;
      match user_privilege with
      | None =>
          r <- UserInfoResponse_init formatted_tickets (PyStr "") ;;
          ret (Returned r)
      | Some p =>
          short <- PrivilegeShortInfo_init (p_balance p) (p_status p) ;;
          r <- UserInfoResponse_init formatted_tickets (PyPrivilegeShortInfo short) ;;
          ret (Returned r)
      end
  end.

(** The payment split of the purchase saga and the ledger write it issues
    (lines 186-215): returns [(cash_payment, bonus_payment)]. *)
Definition pay (purchase_request : TicketPurchaseRequest) (x_user_name : string)
    (flight_info : FlightResponse) (user_privilege : Privilege)
    (current_time : Time) (new_ticket_id : UUID) : M (Z * Z) :=
  let cash_payment := fr_price flight_info in
  let bonus_payment := 0 in
  if paidFromBalance purchase_request then
    let bonus_amount := Z.min (p_balance user_privilege) (fr_price flight_info) in
    let bonus_payment := bonus_amount in
    let cash_payment := fr_price flight_info - bonus_payment in
    (if 0 <? bonus_payment then
       PrivilegesService.add_privilege_transaction x_user_name
         (mkAddTransactionRequest (p_id user_privilege) new_ticket_id current_time
            bonus_payment "DEBIT_THE_ACCOUNT")
     else ret tt) ;;;
    ret (cash_payment, bonus_payment)
  else
    PrivilegesService.add_privilege_transaction x_user_name
      (mkAddTransactionRequest (p_id user_privilege) new_ticket_id current_time
         (cash_payment / 10) "FILL_IN_BALANCE") ;;;
    ret (cash_payment, bonus_payment).

(** POST /tickets *)
Definition purchase_ticket (purchase_request : TicketPurchaseRequest) (x_user_name : string)
  : M PurchaseReply :=
  flight_info <- FlightsService.get_flight_by_number (flightNumber purchase_request) ;;
  if negb (truthy flight_info) then
    ret (ValidationErrorResponse "Data validation failed" [])
  else
    user_privilege <- PrivilegesService.get_user_privilege x_user_name ;;
    match user_privilege with
    | None => ret (ValidationErrorResponse "User does not exist" [])
    | Some user_privilege =>
        current_time <- datetime_now ;;
        new_ticket_id <- uuid4 ;;
        split <- pay purchase_request x_user_name flight_info user_privilege
                   current_time new_ticket_id ;;
        let cash_payment := fst split in
        let bonus_payment := snd split in
        updated_privilege <- PrivilegesService.get_user_privilege x_user_name ;;
        TicketsService.create_new_ticket new_ticket_id x_user_name
          (fr_flightNumber flight_info) cash_payment ;;;
        match updated_privilege with
        | None => raise (AttributeError "balance")
        | Some updated_privilege =>
            privilege <- PrivilegeShortInfo_init (p_balance updated_privilege)
                           (p_status updated_privilege) ;;
            ret (Purchased
                   (mkTicketPurchaseResponse new_ticket_id
                      (flightNumber purchase_request)
                      (fr_fromAirport flight_info) (fr_toAirport flight_info)
                      current_time (fr_price flight_info)
                      cash_payment bonus_payment PAID privilege))
        end
    end.

(** One turn of the body of the loop of [cancel_with_retry]; [true] stands
    for [break]. *)
Definition cancel_with_retry_body (x_user_name : string) (ticket_uid : UUID)
    (interval : Z) : M bool :=
  try_except_circuit_open
    (found <- PrivilegesService.getattr_call "get_user_privelge_transaction"
                x_user_name ticket_uid ;;
     if found then
       PrivilegesService.getattr_call "rollback_transaction" x_user_name ticket_uid ;;;
       ret true
     else ret false)
    (time_sleep (inject_Z interval) ;;; ret false).

(** [while time.time() < deadline: ...]; [None] when the fuel does not
    cover the iterations the loop makes. *)
Fixpoint cancel_with_retry_loop (fuel : nat) (deadline : Time) (x_user_name : string)
    (ticket_uid : UUID) (interval : Z) (w : World) : option (Res unit * World) :=
  match fuel with
  | O => None
  | S fuel' =>
      if Qle_bool deadline (clock w) then Some (Ok tt, w)
      else
        match cancel_with_retry_body x_user_name ticket_uid interval w with
        | (Ok true, w') => Some (Ok tt, w')
        | (Ok false, w') =>
            cancel_with_retry_loop fuel' deadline x_user_name ticket_uid interval w'
        | (Raise e, w') => Some (Raise e, w')
        end
  end.

Definition cancel_with_retry (fuel : nat) (x_user_name : string) (ticket_uid : UUID)
    (max_seconds interval : Z) (w : World) : option (Res unit * World) :=
  let deadline := (clock w + inject_Z max_seconds)%Q in
  cancel_with_retry_loop fuel deadline x_user_name ticket_uid interval w.

(** DELETE /tickets/{ticket_uid} *)
Definition cancel_ticket (ticket_uid : UUID) (x_user_name : string) : M (Reply unit) :=
  ticket_info <- TicketsService.get_ticket_by_uid ticket_uid ;;
  match ticket_info with
  | None => ret (create_error_response "Ticket does not exist" 404)
  | Some ticket_info =>
      if negb (String.eqb (t_username ticket_info) x_user_name) then
        ret (create_error_response "Ticket does not belong to user" 403)
      else if negb (String.eqb (t_status ticket_info) "PAID") then
        ret (create_error_response "Ticket cannot be cancelled" 400)
      else
        transaction_record <-
          PrivilegesService.get_user_privilege_transaction x_user_name ticket_uid ;;
        (match transaction_record with
         | Some _ => PrivilegesService.revert_transaction x_user_name ticket_uid
         | None => ret tt
         end) ;;;
        TicketsService.remove_ticket ticket_uid ;;;
        ret (Returned tt)
  end.

(** GET /flights *)
Definition retrieve_flights (page size : option Z) : M PaginationResponse :=
  FlightsService.get_all_flights page size.


(** GET /tickets/{ticket_uid} *)
Definition retrieve_ticket_details (ticket_uid : UUID) (x_user_name : string)
  : M (Reply TicketResponse) :=
  ticket_info <- TicketsService.get_ticket_by_uid ticket_uid ;;
  match ticket_info with
  | None => ret (create_error_response "Ticket not found" 404)
  | Some ticket_info =>
      if negb (String.eqb (t_username ticket_info) x_user_name) then
        ret (create_error_response "Ticket does not belong to user" 403)
      else
        flight_info <- FlightsService.get_flight_by_number (t_flight_number ticket_info) ;;
        if negb (truthy flight_info) then
          ret (create_error_response "Flight information not available" 404)
        else
          r <- TicketResponse_init (t_ticket_uid ticket_info)
                 (t_flight_number ticket_info)
                 (fr_fromAirport flight_info) (fr_toAirport flight_info)
                 (fr_date flight_info) (t_price ticket_info) (t_status ticket_info) ;;
          ret (Returned r)
  end.

End Gateway.

(** ** Which client operations are guarded

    [services.py] decorates exactly the list/get methods with [@wrap_cb(NAME)];
    the four mutating methods are plain functions. *)

Inductive ReadOperation : forall {A : Type}, string -> M A -> M A -> Prop :=
| read_get_all_flights page size :
    ReadOperation FlightsService.NAME
      (FlightsService.get_all_flights_fn page size)
      (FlightsService.get_all_flights page size)
| read_get_flight_by_number flight_number :
    ReadOperation FlightsService.NAME
      (FlightsService.get_flight_by_number_fn flight_number)
      (FlightsService.get_flight_by_number flight_number)
| read_get_user_tickets username :
    ReadOperation TicketsService.NAME
      (TicketsService.get_user_tickets_fn username)
      (TicketsService.get_user_tickets username)
| read_get_ticket_by_uid ticket_uid :
    ReadOperation TicketsService.NAME
      (TicketsService.get_ticket_by_uid_fn ticket_uid)
      (TicketsService.get_ticket_by_uid ticket_uid)
| read_get_user_privilege username :
    ReadOperation PrivilegesService.NAME
      (PrivilegesService.get_user_privilege_fn username)
      (PrivilegesService.get_user_privilege username)
| read_get_user_privilege_history username :
    ReadOperation PrivilegesService.NAME
      (PrivilegesService.get_user_privilege_history_fn username)
      (PrivilegesService.get_user_privilege_history username)
| read_get_user_privilege_transaction username ticket_uid :
    ReadOperation PrivilegesService.NAME
      (PrivilegesService.get_user_privilege_transaction_fn username ticket_uid)
      (PrivilegesService.get_user_privilege_transaction username ticket_uid).

Inductive WriteOperation : string -> Request -> M unit -> Prop :=
| write_create_new_ticket ticket_uid username flight_number price :
    WriteOperation TicketsService.NAME
      (POST_ticket (mkTicketCreateRequest ticket_uid username flight_number price))
      (TicketsService.create_new_ticket ticket_uid username flight_number price)
| write_remove_ticket ticket_uid :
    WriteOperation TicketsService.NAME
      (DELETE_ticket ticket_uid)
      (TicketsService.remove_ticket ticket_uid)
| write_add_privilege_transaction username transaction_data :
    WriteOperation PrivilegesService.NAME
      (POST_privilege_history username transaction_data)
      (PrivilegesService.add_privilege_transaction username transaction_data)
| write_revert_transaction username ticket_uid :
    WriteOperation PrivilegesService.NAME
      (DELETE_privilege_history_entry username ticket_uid)
      (PrivilegesService.revert_transaction username ticket_uid).

(** The deployed policy: [failure_threshold=1, recovery_timeout=1]. *)
Definition deployed (service : string) (cb : CircuitBreaker) : Prop :=
  service_name cb = service /\ failure_threshold cb = 1 /\ recovery_timeout cb = 1%Q.

(** A breaker that is OPEN and whose cooldown has not elapsed at [now]. *)
Definition cooling_down (now : Time) (cb : CircuitBreaker) : Prop :=
  state cb = OPEN /\ (now - last_failure_time cb < recovery_timeout cb)%Q.

(** A request that reaches its collaborator: no fault is scheduled for it. *)
Definition delivered (w : World) : Prop := hd Healthy (faults w) = Healthy.

(** The breaker of [service] is CLOSED: the next call goes through. *)
Definition closed (service : string) (w : World) : Prop :=
  state (breaker_of (CircuitBreaker_init service 1 1%Q) w) = CLOSED.

(** What a step leaves alone.  [same_data]: everything but the request log,
    the fault schedule and the breakers. *)
Definition same_env (w w' : World) : Prop :=
  clock w' = clock w /\ uuid_gen w' = uuid_gen w /\ uuid_drawn w' = uuid_drawn w
  /\ flights_db w' = flights_db w.

Definition same_data (w w' : World) : Prop :=
  same_env w w' /\ tickets_db w' = tickets_db w /\ bonus_db w' = bonus_db w.

(** The requests a step has put on the wire. *)
Definition sent (w w' : World) (l : list Request) : Prop :=
  net_log w' = (net_log w ++ l)%list.

(** Modelled from the spec: the ledger entry the missing bonus service
    holds for a caller and a ticket identifier. *)
Definition ledger_entry (username : string) (ticket_uid : UUID) (db : BonusApp.Db)
  : option PrivilegeHistory :=
  match BonusApp.account_by_username username db with
  | Some account => BonusApp.entry_of account ticket_uid db
  | None => None
  end.

(** ** The payment split in the words of the specification

    Step 3 of section 4.3: paying from balance, [bonus_payment = min(balance,
    price)] and [cash_payment = price - bonus_payment], with a
    DEBIT_THE_ACCOUNT entry of that amount when it is positive; otherwise
    [cash_payment = price], [bonus_payment = 0] and a FILL_IN_BALANCE entry
    of [cash_payment // 10].  These are compared with [Gateway.pay]. *)

Definition spec_bonus_payment (pay_from_balance : bool) (balance price : Z) : Z :=
  if pay_from_balance then Z.min balance price else 0.

Definition spec_cash_payment (pay_from_balance : bool) (balance price : Z) : Z :=
  price - spec_bonus_payment pay_from_balance balance price.

Definition spec_ledger_write (pay_from_balance : bool) (privilege_id : Z)
    (ticket_uid : UUID) (now : Time) (balance price : Z)
  : option AddTransactionRequest :=
  let bonus_payment := spec_bonus_payment pay_from_balance balance price in
  let cash_payment := spec_cash_payment pay_from_balance balance price in
  if pay_from_balance then
    if 0 <? bonus_payment
    then Some (mkAddTransactionRequest privilege_id ticket_uid now bonus_payment
                 "DEBIT_THE_ACCOUNT")
    else None
  else Some (mkAddTransactionRequest privilege_id ticket_uid now (cash_payment / 10)
               "FILL_IN_BALANCE").

(** Modelled from the spec: the ledger entry the missing bonus service
    stores for an accepted append. *)
Definition stored_entry (db : BonusApp.Db) (tx : AddTransactionRequest)
  : PrivilegeHistory :=
  mkPrivilegeHistory (BonusApp.next_id db) (at_privilege_id tx) (at_ticket_uid tx)
    (at_datetime tx) (at_balance_diff tx) (at_operation_type tx).

Definition option_to_list {A} (o : option A) : list A :=
  match o with
  | Some a => [a]
  | None => []
  end.

(** ** The ways a run of the purchase saga can end *)

(** Steps 1 and 2 succeeded: the catalog has the flight, the ledger store
    has the caller's account. *)
Definition resolved (req : TicketPurchaseRequest) (user : string) (w : World)
    (flight : FlightResponse) (account : Privilege) : Prop :=
  fst (FlightsApp.get_flight_by_number (flightNumber req) (flights_db w))
  = Success 200 flight
  /\ BonusApp.account_by_username user (bonus_db w) = Some account.

(** The ledger append step 3 owes, for the ticket identifier and the instant
    drawn in world [w]. *)
Definition ledger_of (req : TicketPurchaseRequest) (w : World)
    (flight : FlightResponse) (account : Privilege) : option AddTransactionRequest :=
  spec_ledger_write (paidFromBalance req) (p_id account)
    (uuid_gen w (uuid_drawn w)) (clock w) (p_balance account) (fr_price flight).

Definition ledger_requests (user : string) (ledger : option AddTransactionRequest)
  : list Request :=
  List.map (POST_privilege_history user) (option_to_list ledger).

(** The ledger store of [w'] is the one of [w] with the append applied. *)
Definition ledger_applied (user : string) (ledger : option AddTransactionRequest)
    (w w' : World) : Prop :=
  match ledger with
  | Some tx => BonusApp.add_transaction user tx (bonus_db w) = (Success 201 tt, bonus_db w')
  | None => bonus_db w' = bonus_db w
  end.

Definition ticket_of (req : TicketPurchaseRequest) (user : string) (w : World)
    (flight : FlightResponse) (account : Privilege) : TicketCreateRequest :=
  mkTicketCreateRequest (uuid_gen w (uuid_drawn w)) user (fr_flightNumber flight)
    (spec_cash_payment (paidFromBalance req) (p_balance account) (fr_price flight)).

Definition response_of (req : TicketPurchaseRequest) (w : World)
    (flight : FlightResponse) (account : Privilege) (privilege : PrivilegeShortInfo)
  : TicketPurchaseResponse :=
  mkTicketPurchaseResponse (uuid_gen w (uuid_drawn w)) (flightNumber req)
    (fr_fromAirport flight) (fr_toAirport flight) (clock w) (fr_price flight)
    (spec_cash_payment (paidFromBalance req) (p_balance account) (fr_price flight))
    (spec_bonus_payment (paidFromBalance req) (p_balance account) (fr_price flight))
    PAID privilege.

Inductive purchase_outcome (req : TicketPurchaseRequest) (user : string) (w : World)
  : Res Gateway.PurchaseReply -> World -> Prop :=
| stopped_before_payment r w' l :
    same_data w w' ->
    sent w w' l ->
    incl l [GET_flight (flightNumber req); GET_privilege user] ->
    (forall resp, r <> Ok (Gateway.Purchased resp)) ->
    purchase_outcome req user w r w'
| ledger_write_failed flight account tx e w' :
    resolved req user w flight account ->
    ledger_of req w flight account = Some tx ->
    sent w w' [GET_flight (flightNumber req); GET_privilege user;
               POST_privilege_history user tx] ->
    bonus_db w' = bonus_db w ->
    tickets_db w' = tickets_db w ->
    purchase_outcome req user w (Raise e) w'
| stopped_after_payment flight account post e w' :
    resolved req user w flight account ->
    sent w w' ([GET_flight (flightNumber req); GET_privilege user]
               ++ ledger_requests user (ledger_of req w flight account) ++ post) ->
    post = [] \/ post = [GET_privilege user]
    \/ post = [GET_privilege user; POST_ticket (ticket_of req user w flight account)] ->
    ledger_applied user (ledger_of req w flight account) w w' ->
    tickets_db w' = tickets_db w ->
    purchase_outcome req user w (Raise e) w'
| ticket_stored flight account r w' :
    resolved req user w flight account ->
    sent w w' ([GET_flight (flightNumber req); GET_privilege user]
               ++ ledger_requests user (ledger_of req w flight account)
               ++ [GET_privilege user; POST_ticket (ticket_of req user w flight account)]) ->
    ledger_applied user (ledger_of req w flight account) w w' ->
    TicketsApp.create_new_ticket (ticket_of req user w flight account) (tickets_db w)
    = (Success 201 tt, tickets_db w') ->
    (exists e, r = Raise e)
    \/ (exists updated status,
           BonusApp.account_by_username user (bonus_db w') = Some updated
           /\ parse_PrivilegeStatus (p_status updated) = Some status
           /\ r = Ok (Gateway.Purchased
                        (response_of req w flight account
                           (mkPrivilegeShortInfo (p_balance updated) status)))) ->
    purchase_outcome req user w r w'.

(** ** Well-formed tables

    Primary keys are unique, and the tickets table holds at most one row per
    ticket identifier (the create handler refuses duplicates). *)

Definition tickets_wf (db : TicketsApp.Db) : Prop :=
  List.NoDup (List.map t_id (TicketsApp.rows db))
  /\ List.NoDup (List.map t_ticket_uid (TicketsApp.rows db))
  /\ Forall (fun r => t_id r < TicketsApp.next_id db) (TicketsApp.rows db).

Definition ledger_wf (db : BonusApp.Db) : Prop :=
  List.NoDup (List.map h_id (BonusApp.history db))
  /\ Forall (fun h => h_id h < BonusApp.next_id db) (BonusApp.history db).

(** ** Tables built through the tickets API *)

(** The tickets tables one gets from an empty table by the two mutating
    handlers of [tickets/main.py]. *)
Inductive tickets_reachable : TicketsApp.Db -> Prop :=
| reach_empty n : tickets_reachable (TicketsApp.mkDb [] n)
| reach_create request db :
    tickets_reachable db ->
    tickets_reachable (snd (TicketsApp.create_new_ticket request db))
| reach_remove ticket_uid db :
    tickets_reachable db ->
    tickets_reachable (snd (TicketsApp.remove_ticket ticket_uid db)).

Definition all_paid (db : TicketsApp.Db) : Prop :=
  Forall (fun r => t_status r = "PAID") (TicketsApp.rows db).


(** ** Pages of the flights catalog *)

(** The items the flights service returns for a page, [[]] when it does
    not answer 200. *)
Definition page_items (db : FlightsApp.Db) (page : Z) : list FlightResponse :=
  match fst (FlightsApp.get_all_flights (Some page) None db) with
  | Success _ r => pg_items r
  | HTTPException _ _ => []
  end.

(** The sentinel of [get_flight_by_number_or_default]. *)
Definition default_flight : FlightResponse :=
  mkFlightResponse "XXX" "XXX" "XXX" FlightsService.datetime_fromordinal_1 0.

(** The requests a cancel sends when every step is reached, with and
    without a ledger entry to revert. *)
Definition cancel_requests (user : string) (ticket_uid : UUID) (revert : bool)
  : list Request :=
  [GET_ticket ticket_uid; GET_privilege_history_entry user ticket_uid]
  ++ (if revert then [DELETE_privilege_history_entry user ticket_uid] else [])
  ++ [DELETE_ticket ticket_uid].

(** ** Concrete worlds used to replay scenarios *)

Definition demo_flights : FlightsApp.Db :=
  FlightsApp.mkDb
    [mkAirport 1 "Sheremetyevo" "Moscow" "Russia";
     mkAirport 2 "Pulkovo" "Saint Petersburg" "Russia"]
    [mkFlight 1 "AFL031" 50%Q 2 1 400].

Definition demo_accounts (balance : Z) : BonusApp.Db :=
  BonusApp.mkDb [mkPrivilege 1 "max" "GOLD" balance] [] 1.

(** A world at time [now] with one flight of price 400, one account "max",
    no ticket, the given fault schedule and breaker registry. *)
Definition demo_world (now : Time) (balance : Z) (schedule : list Fault)
    (registry : gmap string CircuitBreaker) : World :=
  mkWorld now (fun n => (1000 + N.of_nat n)%N) 0 schedule [] registry
          demo_flights (TicketsApp.mkDb [] 1) (demo_accounts balance).

(** A breaker of the deployed policy that opened at time 100. *)
Definition opened_at_100 (service : string) : CircuitBreaker :=
  mkCircuitBreaker service OPEN 1 100%Q 1 1%Q.

(** Scenario 1 of the specification: balance 500, price 400, paying from
    balance; the request carries a price of 7, which nobody reads. *)
Definition scenario1_request : TicketPurchaseRequest :=
  mkTicketPurchaseRequest "AFL031" 7 true.

Definition scenario1_response : TicketPurchaseResponse :=
  mkTicketPurchaseResponse 1000%N "AFL031" "Saint Petersburg Pulkovo"
    "Moscow Sheremetyevo" 100%Q 400 0 400 PAID (mkPrivilegeShortInfo 100 GOLD).

(** A world in which "max" holds ticket 1000, bought for cash, with its
    FILL_IN_BALANCE ledger entry. *)
Definition world_with_ticket : World :=
  with_tickets_db
    (TicketsApp.mkDb [mkTicket 1 1000%N "max" "AFL031" 400 "PAID"] 2)
    (with_bonus_db
       (BonusApp.mkDb [mkPrivilege 1 "max" "GOLD" 540]
          [mkPrivilegeHistory 1 1 1000%N 100%Q 40 "FILL_IN_BALANCE"] 2)
       (demo_world 100%Q 500 [] ∅)).

(** A catalog of twelve flights between the two demo airports. *)
Definition twelve_flights : FlightsApp.Db :=
  FlightsApp.mkDb
    [mkAirport 1 "Sheremetyevo" "Moscow" "Russia";
     mkAirport 2 "Pulkovo" "Saint Petersburg" "Russia"]
    (List.map (fun i => mkFlight (Z.of_nat i) "AFL031" 50%Q 2 1 (100 + Z.of_nat i))
              (seq 1 12)).

(** * Proofs *)

(** ** Tactics for running the monad symbolically *)

Ltac break_match :=
  match goal with
  | |- context [match ?x with _ => _ end] => destruct x eqn:?
  | H : context [match ?x with _ => _ end] |- _ => destruct x eqn:?
  end.

Ltac io_unfold :=
  unfold wrap_cb, CircuitBreaker_call, bind, requests, send, deliver,
    on_flights, on_tickets, on_bonus, raise_for_status, model_validate, ret, raise in *.

Ltac io_cases :=
  repeat (break_match; simpl in *; try discriminate; simplify_eq; simpl in *).

(** ** The monad *)

Lemma bind_Ok {A B} (m : M A) (k : A -> M B) w a w1 :
  m w = (Ok a, w1) -> bind m k w = k a w1.
Proof. intros H. unfold bind. now rewrite H. Qed.

Lemma bind_Raise {A B} (m : M A) (k : A -> M B) w e w1 :
  m w = (Raise e, w1) -> bind m k w = (Raise e, w1).
Proof. intros H. unfold bind. now rewrite H. Qed.

Lemma bind_inv {A B} (m : M A) (k : A -> M B) w r w' :
  bind m k w = (r, w') ->
  (exists a w1, m w = (Ok a, w1) /\ k a w1 = (r, w'))
  \/ (exists e, m w = (Raise e, w') /\ r = Raise e).
Proof.
  unfold bind. destruct (m w) as [[a|e] w1]; intros H.
  - left. eauto.
  - right. inversion H; subst. eauto.
Qed.

(** ** The world *)

Lemma with_breakers_same w : with_breakers (breakers w) w = w.
Proof. now destruct w. Qed.

Lemma store_breaker_registered cb w :
  breakers w !! service_name cb = Some cb -> store_breaker cb w = w.
Proof.
  intros H. unfold store_breaker. rewrite insert_id by exact H.
  apply with_breakers_same.
Qed.

Lemma store_breaker_lookup cb w :
  breakers (store_breaker cb w) !! service_name cb = Some cb.
Proof. unfold store_breaker. simpl. apply lookup_insert_eq. Qed.

Lemma breaker_of_registered fresh w cb :
  breakers w !! service_name fresh = Some cb -> breaker_of fresh w = cb.
Proof. intros H. unfold breaker_of. now rewrite H. Qed.

(** ** The breaker's gate *)

Lemma Qle_bool_false_lt (a b : Q) : Qle_bool a b = false <-> (b < a)%Q.
Proof.
  split; intros H.
  - apply Qnot_le_lt. intros Hle. apply Qle_bool_iff in Hle. congruence.
  - destruct (Qle_bool a b) eqn:E; [|reflexivity].
    apply Qle_bool_iff in E. exfalso. exact (Qlt_not_le _ _ H E).
Qed.

Lemma allow_call_cooling_down now cb :
  cooling_down now cb -> allow_call now cb = None.
Proof.
  intros [Hs Hlt]. unfold allow_call. rewrite Hs.
  apply Qle_bool_false_lt in Hlt. now rewrite Hlt.
Qed.

Lemma allow_call_elapsed now cb :
  state cb = OPEN -> (recovery_timeout cb <= now - last_failure_time cb)%Q ->
  allow_call now cb = Some (set_state HALF_OPEN cb).
Proof.
  intros Hs Hle. unfold allow_call. rewrite Hs.
  apply Qle_bool_iff in Hle. now rewrite Hle.
Qed.

Lemma allow_call_closed now cb :
  state cb = CLOSED -> allow_call now cb = Some cb.
Proof. intros Hs. unfold allow_call. now rewrite Hs. Qed.

(** A rejected call changes nothing, the request log included. *)
Lemma CircuitBreaker_call_rejected {A} fresh (fn : M A) w :
  cooling_down (clock w) (breaker_of fresh w) ->
  CircuitBreaker_call fresh fn w = (Raise (CircuitOpenException (service_name fresh)), w).
Proof.
  intros H. unfold CircuitBreaker_call. now rewrite (allow_call_cooling_down _ _ H).
Qed.

Lemma wrap_cb_rejected {A} service (fn : M A) w cb :
  breakers w !! service = Some cb -> cooling_down (clock w) cb ->
  wrap_cb service fn w = (Raise (CircuitOpenException service), w).
Proof.
  intros Hcb Hcool. unfold wrap_cb.
  apply (CircuitBreaker_call_rejected (CircuitBreaker_init service 1 1%Q)).
  unfold breaker_of. simpl. now rewrite Hcb.
Qed.

Lemma ReadOperation_wrapped {A} service (fn op : M A) :
  ReadOperation service fn op -> op = wrap_cb service fn.
Proof. now destruct 1. Qed.

(** The undecorated read functions only talk to the network: they leave the
    breaker registry and the clock alone. *)
Lemma ReadOperation_keeps_breakers {A} service (fn op : M A) w :
  ReadOperation service fn op ->
  breakers (snd (fn w)) = breakers w /\ clock (snd (fn w)) = clock w.
Proof.
  destruct 1;
    unfold FlightsService.get_all_flights_fn, FlightsService.get_flight_by_number_fn,
      TicketsService.get_user_tickets_fn, TicketsService.get_ticket_by_uid_fn,
      PrivilegesService.get_user_privilege_fn,
      PrivilegesService.get_user_privilege_history_fn,
      PrivilegesService.get_user_privilege_transaction_fn,
      FlightsApp.get_all_flights, FlightsApp.get_flight_by_number,
      TicketsApp.get_user_tickets, TicketsApp.get_ticket_details,
      BonusApp.get_privilege, BonusApp.get_privilege_history,
      BonusApp.get_privilege_transaction;
    io_unfold; io_cases; auto.
Qed.

(** After an undecorated read ran on a world in which [cb] is registered,
    [cb] is still what the registry holds. *)
Lemma breaker_of_after_read {A} service (fn op : M A) cb w r w2 :
  ReadOperation service fn op ->
  fn (store_breaker cb w) = (r, w2) ->
  breaker_of cb w2 = cb /\ clock w2 = clock w.
Proof.
  intros Hop Hfn.
  destruct (ReadOperation_keeps_breakers service fn op (store_breaker cb w) Hop)
    as [Hb Hc].
  rewrite Hfn in Hb, Hc. cbn [snd] in Hb, Hc. split.
  - unfold breaker_of. rewrite Hb. now rewrite store_breaker_lookup.
  - exact Hc.
Qed.

Lemma wrap_cb_let_through {A} service (fn op : M A) w cb1 r w2 :
  ReadOperation service fn op ->
  allow_call (clock w) (breaker_of (CircuitBreaker_init service 1 1%Q) w) = Some cb1 ->
  fn (store_breaker cb1 w) = (r, w2) ->
  op w = (r, store_breaker
               (match r with
                | Ok _ => on_success cb1
                | Raise _ => on_failure (clock w) cb1
                end) w2).
Proof.
  intros Hop Hallow Hfn.
  rewrite (ReadOperation_wrapped _ _ _ Hop).
  unfold wrap_cb, CircuitBreaker_call. rewrite Hallow, Hfn.
  destruct (breaker_of_after_read _ _ _ _ _ _ _ Hop Hfn) as [-> ->].
  now destruct r.
Qed.

(** C2. Circuit breaker state machine under the deployed policy
    (failure_threshold = 1, recovery_timeout = 1), for every breaker-guarded
    read operation [op] with undecorated function [fn]:
    (1) the first failed call of a CLOSED breaker leaves it OPEN, timer set
        to now;
    (2) a call made while OPEN before the timeout has elapsed raises
        CircuitOpenException and leaves the world, hence the request log,
        untouched: there is no network attempt;
    (3) a call made while OPEN once the timeout has elapsed runs [fn] with
        the breaker HALF_OPEN; its success leaves the breaker CLOSED with
        failure_count = 0, its failure leaves it OPEN with the timer reset
        to now. *)
Theorem breaker_state_machine {A} (service : string) (fn op : M A) (w : World) :
  let cb := breaker_of (CircuitBreaker_init service 1 1%Q) w in
  ReadOperation service fn op ->
  deployed service cb ->
  (state cb = CLOSED -> failure_count cb = 0 ->
   forall e w2, fn (store_breaker cb w) = (Raise e, w2) ->
   exists cb', op w = (Raise e, store_breaker cb' w2) /\
               service_name cb' = service /\
               state cb' = OPEN /\ last_failure_time cb' = clock w)
  /\ (state cb = OPEN -> (clock w - last_failure_time cb < 1)%Q ->
      op w = (Raise (CircuitOpenException service), w)
      /\ net_log (snd (op w)) = net_log w)
  /\ (state cb = OPEN -> (1 <= clock w - last_failure_time cb)%Q ->
      let trial := store_breaker (set_state HALF_OPEN cb) w in
      breakers trial !! service = Some (set_state HALF_OPEN cb)
      /\ (forall a w2, fn trial = (Ok a, w2) ->
          exists cb', op w = (Ok a, store_breaker cb' w2) /\
                      service_name cb' = service /\
                      state cb' = CLOSED /\ failure_count cb' = 0)
      /\ (forall e w2, fn trial = (Raise e, w2) ->
          exists cb', op w = (Raise e, store_breaker cb' w2) /\
                      service_name cb' = service /\
                      state cb' = OPEN /\ last_failure_time cb' = clock w)).
Proof.
  intros cb Hop (Hname & Hthr & Htmo).
  split; [|split].
  - intros Hs Hcount e w2 Hfn.
    pose proof (wrap_cb_let_through service fn op w cb (Raise e) w2 Hop
                  (allow_call_closed _ _ Hs) Hfn) as Hrun.
    eexists. split; [exact Hrun|].
    unfold on_failure. rewrite Hs, Hthr, Hcount. simpl. auto.
  - intros Hs Hlt.
    assert (Hrej : op w = (Raise (CircuitOpenException service), w)).
    { rewrite (ReadOperation_wrapped _ _ _ Hop). unfold wrap_cb.
      apply (CircuitBreaker_call_rejected (CircuitBreaker_init service 1 1%Q)).
      split; [exact Hs|]. fold cb. now rewrite Htmo. }
    split; [exact Hrej|]. now rewrite Hrej.
  - intros Hs Hle trial.
    assert (Hallow : allow_call (clock w) cb = Some (set_state HALF_OPEN cb)).
    { apply allow_call_elapsed; [exact Hs|]. now rewrite Htmo. }
    split; [|split].
    + subst trial. rewrite <- Hname at 1.
      apply (store_breaker_lookup (set_state HALF_OPEN cb)).
    + intros a w2 Hfn.
      pose proof (wrap_cb_let_through service fn op w _ (Ok a) w2 Hop Hallow Hfn) as Hrun.
      eexists. split; [exact Hrun|]. simpl. auto.
    + intros e w2 Hfn.
      pose proof (wrap_cb_let_through service fn op w _ (Raise e) w2 Hop Hallow Hfn) as Hrun.
      eexists. split; [exact Hrun|]. simpl. auto.
Qed.

(** Scenario 4 of the specification, on the account lookup: the call at
    time 100 hits an unreachable collaborator and opens the breaker; a call
    at 100.5 is rejected without a request; a call at 101.5 goes through as
    a trial and closes the breaker. *)
Lemma breaker_state_machine_witness :
  (exists cb',
      PrivilegesService.get_user_privilege "max" (demo_world 100%Q 500 [Unreachable] ∅)
      = (Raise ConnectionError,
         store_breaker cb'
           (with_faults []
              (with_net_log [GET_privilege "max"]
                 (store_breaker (CircuitBreaker_init "Bonus Service" 1 1%Q)
                    (demo_world 100%Q 500 [Unreachable] ∅))))) /\
      service_name cb' = "Bonus Service" /\ state cb' = OPEN /\
      last_failure_time cb' = 100%Q)
  /\ (let w := demo_world (201 # 2) 500 [] {["Bonus Service" := opened_at_100 "Bonus Service"]} in
      PrivilegesService.get_user_privilege "max" w
      = (Raise (CircuitOpenException "Bonus Service"), w)
      /\ net_log (snd (PrivilegesService.get_user_privilege "max" w)) = net_log w)
  /\ (let w := demo_world (203 # 2) 500 [] {["Bonus Service" := opened_at_100 "Bonus Service"]} in
      exists cb',
        PrivilegesService.get_user_privilege "max" w
        = (Ok (Some (mkPrivilege 1 "max" "GOLD" 500)),
           store_breaker cb'
             (with_net_log [GET_privilege "max"]
                (store_breaker (set_state HALF_OPEN (opened_at_100 "Bonus Service")) w))) /\
        service_name cb' = "Bonus Service" /\ state cb' = CLOSED /\ failure_count cb' = 0).
Proof.
  split; [|split].
  - apply (proj1 (breaker_state_machine "Bonus Service"
                    (PrivilegesService.get_user_privilege_fn "max")
                    (PrivilegesService.get_user_privilege "max")
                    (demo_world 100%Q 500 [Unreachable] ∅)
                    (read_get_user_privilege "max")
                    ltac:(repeat split)));
      reflexivity.
  - intros w.
    apply (proj1 (proj2 (breaker_state_machine "Bonus Service"
                    (PrivilegesService.get_user_privilege_fn "max")
                    (PrivilegesService.get_user_privilege "max") w
                    (read_get_user_privilege "max")
                    ltac:(repeat split))));
      reflexivity.
  - intros w.
    apply (proj1 (proj2 (proj2 (proj2 (breaker_state_machine "Bonus Service"
                    (PrivilegesService.get_user_privilege_fn "max")
                    (PrivilegesService.get_user_privilege "max") w
                    (read_get_user_privilege "max")
                    ltac:(repeat split)))
                  eq_refl ltac:(vm_compute; discriminate)))).
    reflexivity.
Defined.

(** ** Read/write asymmetry of the clients *)

(** C6. Every read operation of the three clients is breaker-guarded: while
    its collaborator's breaker is OPEN and cooling down it raises
    CircuitOpenException and sends nothing.  Every write operation (create
    ticket, delete ticket, append ledger entry, delete ledger entry) goes
    straight to the network: in every world, whatever the breakers hold, it
    puts exactly its request on the wire, leaves the breaker registry as it
    is, and never raises CircuitOpenException. *)
Theorem breaker_asymmetry :
  (forall (A : Type) (service : string) (fn op : M A),
      ReadOperation service fn op ->
      forall (w : World) (cb : CircuitBreaker),
        breakers w !! service = Some cb ->
        cooling_down (clock w) cb ->
        op w = (Raise (CircuitOpenException service), w))
  /\ (forall (service : string) (req : Request) (op : M unit),
         WriteOperation service req op ->
         forall w : World,
           net_log (snd (op w)) = (net_log w ++ [req])%list
           /\ breakers (snd (op w)) = breakers w
           /\ forall s, fst (op w) <> Raise (CircuitOpenException s)).
Proof.
  split.
  - intros A service fn op Hop w cb Hcb Hcool.
    rewrite (ReadOperation_wrapped _ _ _ Hop).
    now apply wrap_cb_rejected with (cb := cb).
  - intros service req op Hop w.
    destruct Hop;
      unfold TicketsService.create_new_ticket, TicketsService.remove_ticket,
        PrivilegesService.add_privilege_transaction,
        PrivilegesService.revert_transaction,
        TicketsApp.create_new_ticket, TicketsApp.remove_ticket,
        BonusApp.add_transaction, BonusApp.remove_transaction;
      io_unfold; io_cases; repeat split; congruence.
Qed.

(** With the loyalty breaker open at time 100.5, the account lookup is
    rejected, and the ledger append issued in the same world is sent. *)
Lemma breaker_asymmetry_witness :
  let w := demo_world (201 # 2) 500 [] {["Bonus Service" := opened_at_100 "Bonus Service"]} in
  let tx := mkAddTransactionRequest 1 7%N 100%Q 40 "FILL_IN_BALANCE" in
  PrivilegesService.get_user_privilege "max" w
  = (Raise (CircuitOpenException "Bonus Service"), w)
  /\ net_log (snd (PrivilegesService.add_privilege_transaction "max" tx w))
     = [POST_privilege_history "max" tx]
  /\ fst (PrivilegesService.add_privilege_transaction "max" tx w) = Ok tt.
Proof.
  intros w tx. split; [|split].
  - apply (proj1 breaker_asymmetry _ "Bonus Service"
             (PrivilegesService.get_user_privilege_fn "max")
             (PrivilegesService.get_user_privilege "max")
             (read_get_user_privilege "max") w (opened_at_100 "Bonus Service")).
    + reflexivity.
    + split; reflexivity.
  - exact (proj1 (proj2 breaker_asymmetry _ _ _
                    (write_add_privilege_transaction "max" tx) w)).
  - reflexivity.
Defined.

(** ** 404 handling of the lookup calls *)

Ltac lookup_by_cases :=
  unfold closed, delivered; intros;
  unfold FlightsService.get_flight_by_number, FlightsService.get_flight_by_number_fn,
    TicketsService.get_ticket_by_uid, TicketsService.get_ticket_by_uid_fn,
    PrivilegesService.get_user_privilege, PrivilegesService.get_user_privilege_fn,
    PrivilegesService.get_user_privilege_transaction,
    PrivilegesService.get_user_privilege_transaction_fn,
    FlightsApp.get_flight_by_number, TicketsApp.get_ticket_details,
    BonusApp.get_privilege, BonusApp.get_privilege_transaction in *;
  io_unfold; unfold allow_call in *; io_cases; try congruence.

(** The sibling lookups map a 404 answer to [None]. *)
Lemma get_ticket_by_uid_404 ticket_uid w :
  closed TicketsService.NAME w -> delivered w ->
  TicketsApp.first_by_uid ticket_uid (tickets_db w) = None ->
  fst (TicketsService.get_ticket_by_uid ticket_uid w) = Ok None.
Proof. lookup_by_cases. Qed.

Lemma get_user_privilege_404 username w :
  closed PrivilegesService.NAME w -> delivered w ->
  BonusApp.account_by_username username (bonus_db w) = None ->
  fst (PrivilegesService.get_user_privilege username w) = Ok None.
Proof. lookup_by_cases. Qed.

Lemma get_user_privilege_transaction_404 username ticket_uid w :
  closed PrivilegesService.NAME w -> delivered w ->
  fst (BonusApp.get_privilege_transaction username ticket_uid (bonus_db w))
  = HTTPException 404 "Transaction not found" ->
  fst (PrivilegesService.get_user_privilege_transaction username ticket_uid w) = Ok None.
Proof. lookup_by_cases. Qed.

(** C3, as the code has it for flight-by-number: when the flights service
    answers 404 (no flight of that number in the catalog), the client raises
    HTTPError(404) instead of returning a not-found result; the request was
    sent and the failure is recorded by the breaker. *)
Theorem get_flight_by_number_404_raises (flight_number : string) (w : World) :
  closed FlightsService.NAME w ->
  delivered w ->
  List.find (fun f => String.eqb (f_flight_number f) flight_number)
            (FlightsApp.flights (flights_db w)) = None ->
  fst (FlightsService.get_flight_by_number flight_number w) = Raise (HTTPError 404)
  /\ net_log (snd (FlightsService.get_flight_by_number flight_number w))
     = (net_log w ++ [GET_flight flight_number])%list.
Proof. lookup_by_cases; auto. Qed.

Lemma get_flight_by_number_404_raises_witness :
  fst (FlightsService.get_flight_by_number "NOPE" (demo_world 100%Q 500 [] ∅))
  = Raise (HTTPError 404)
  /\ net_log (snd (FlightsService.get_flight_by_number "NOPE" (demo_world 100%Q 500 [] ∅)))
     = [GET_flight "NOPE"].
Proof.
  apply (get_flight_by_number_404_raises "NOPE" (demo_world 100%Q 500 [] ∅));
    reflexivity.
Defined.

(** The purchase saga does not turn an unknown flight into a validation
    failure: the HTTPError of the lookup escapes the handler. *)
Lemma purchase_unknown_flight_raises :
  fst (Gateway.purchase_ticket (mkTicketPurchaseRequest "NOPE" 400 false) "max"
         (demo_world 100%Q 500 [] ∅))
  = Raise (HTTPError 404).
Proof. reflexivity. Qed.

(** ** Duplicate ticket identifiers *)

Lemma first_by_uid_present ticket_uid db :
  (exists t, In t (TicketsApp.rows db) /\ t_ticket_uid t = ticket_uid) ->
  exists t, TicketsApp.first_by_uid ticket_uid db = Some t.
Proof.
  intros (t & Hin & Huid). unfold TicketsApp.first_by_uid.
  destruct (List.find _ _) eqn:E; [eauto|].
  apply (List.find_none _ _ E) in Hin. apply N.eqb_neq in Hin. congruence.
Qed.

(** C7. Creating a ticket whose identifier is already stored fails with
    status 403 and leaves the tickets table as it was; seen from the client,
    the write raises HTTPError(403) when it reaches the store, and the
    stored tickets are the same afterwards. *)
Theorem create_duplicate_ticket_forbidden (request : TicketCreateRequest) (w : World) :
  (exists t, In t (TicketsApp.rows (tickets_db w))
             /\ t_ticket_uid t = tc_ticketUid request) ->
  TicketsApp.create_new_ticket request (tickets_db w)
  = (HTTPException 403 "Ticket with this UUID already exists", tickets_db w)
  /\ tickets_db (snd (TicketsService.create_new_ticket (tc_ticketUid request)
                        (tc_username request) (tc_flightNumber request)
                        (tc_price request) w)) = tickets_db w
  /\ (delivered w ->
      fst (TicketsService.create_new_ticket (tc_ticketUid request)
             (tc_username request) (tc_flightNumber request) (tc_price request) w)
      = Raise (HTTPError 403)).
Proof.
  intros Hdup. apply first_by_uid_present in Hdup. destruct Hdup as [t Ht].
  split.
  - unfold TicketsApp.create_new_ticket. now rewrite Ht.
  - unfold delivered, TicketsService.create_new_ticket, TicketsApp.create_new_ticket.
    io_unfold. simpl.
    split; [|intros Hd]; io_cases; congruence.
Qed.

Lemma create_duplicate_ticket_forbidden_witness :
  let w := with_tickets_db
             (TicketsApp.mkDb [mkTicket 1 77%N "user1" "FL100" 1500 "PAID"] 2)
             (demo_world 100%Q 500 [] ∅) in
  let request := mkTicketCreateRequest 77%N "user2" "FL200" 2000 in
  TicketsApp.create_new_ticket request (tickets_db w)
  = (HTTPException 403 "Ticket with this UUID already exists", tickets_db w)
  /\ tickets_db (snd (TicketsService.create_new_ticket 77%N "user2" "FL200" 2000 w))
     = tickets_db w
  /\ (delivered w ->
      fst (TicketsService.create_new_ticket 77%N "user2" "FL200" 2000 w)
      = Raise (HTTPError 403)).
Proof.
  intros w request.
  apply (create_duplicate_ticket_forbidden request w).
  exists (mkTicket 1 77%N "user1" "FL100" 1500 "PAID").
  split; [left|]; reflexivity.
Defined.

(** ** The caller-supplied price *)

(** C10. The [price] field of a purchase request has no effect on the
    purchase saga: two requests that agree on the flight number and on the
    pay-from-balance flag, whatever their prices, yield the same reply and
    the same final world (request log, ledger, tickets, breakers), in every
    world and for every caller. *)
Theorem purchase_ignores_request_price
    (request1 request2 : TicketPurchaseRequest) (x_user_name : string) (w : World) :
  flightNumber request1 = flightNumber request2 ->
  paidFromBalance request1 = paidFromBalance request2 ->
  Gateway.purchase_ticket request1 x_user_name w
  = Gateway.purchase_ticket request2 x_user_name w.
Proof.
  destruct request1 as [number1 price1 flag1], request2 as [number2 price2 flag2].
  cbn [flightNumber paidFromBalance]. intros <- <-.
  unfold Gateway.purchase_ticket.
  cbn [flightNumber paidFromBalance].
  (* the two sagas differ only inside [Gateway.pay], which reads the flag *)
  f_equal.
Qed.

(** A request that announces a price of 7 and one that announces 1000000,
    for a flight the catalog prices at 400. *)
Lemma purchase_ignores_request_price_witness :
  Gateway.purchase_ticket (mkTicketPurchaseRequest "AFL031" 7 true) "max"
    (demo_world 100%Q 500 [] ∅)
  = Gateway.purchase_ticket (mkTicketPurchaseRequest "AFL031" 1000000 true) "max"
      (demo_world 100%Q 500 [] ∅).
Proof.
  apply (purchase_ignores_request_price
           (mkTicketPurchaseRequest "AFL031" 7 true)
           (mkTicketPurchaseRequest "AFL031" 1000000 true)); reflexivity.
Defined.

(** ** The bounded-retry cancel variant *)

Lemma deadline_ahead (now : Time) (max_seconds : Z) :
  0 < max_seconds -> Qle_bool (now + inject_Z max_seconds) now = false.
Proof.
  intros Hpos. apply Qle_bool_false_lt.
  rewrite <- (Qplus_0_r now) at 1.
  apply Qplus_lt_r. unfold Qlt. simpl. lia.
Qed.

Lemma deadline_passed (now : Time) (max_seconds : Z) :
  max_seconds <= 0 -> Qle_bool (now + inject_Z max_seconds) now = true.
Proof.
  intros Hneg. apply Qle_bool_iff.
  rewrite <- (Qplus_0_r now) at 2.
  apply Qplus_le_r. unfold Qle. simpl. lia.
Qed.

(** The two method names [cancel_with_retry] uses are not attributes of
    [PrivilegesService]. *)
Lemma getattr_call_misspelt username ticket_uid w :
  PrivilegesService.getattr_call "get_user_privelge_transaction" username ticket_uid w
  = (Raise (AttributeError "get_user_privelge_transaction"), w)
  /\ PrivilegesService.getattr_call "rollback_transaction" username ticket_uid w
     = (Raise (AttributeError "rollback_transaction"), w).
Proof. split; reflexivity. Qed.

(** C9, as the code has it: with a deadline in the future, the first turn of
    the loop of [cancel_with_retry] raises AttributeError for the undefined
    method [get_user_privelge_transaction]; the exception is not a
    CircuitOpenException, so it leaves the function.  The world is
    unchanged: no ledger lookup was sent, nothing was deleted, no time was
    slept. *)
Theorem cancel_with_retry_raises_AttributeError
    (fuel : nat) (x_user_name : string) (ticket_uid : UUID)
    (max_seconds interval : Z) (w : World) :
  0 < max_seconds ->
  Gateway.cancel_with_retry (S fuel) x_user_name ticket_uid max_seconds interval w
  = Some (Raise (AttributeError "get_user_privelge_transaction"), w).
Proof.
  intros Hpos.
  unfold Gateway.cancel_with_retry.
  cbn [Gateway.cancel_with_retry_loop].
  (* the loop condition [time.time() < deadline] holds *)
  rewrite (deadline_ahead (clock w) max_seconds Hpos).
  (* the body: attribute lookup fails before any request is made *)
  unfold Gateway.cancel_with_retry_body, try_except_circuit_open.
  destruct (getattr_call_misspelt x_user_name ticket_uid w) as [Hlookup _].
  rewrite (bind_Raise _ _ _ _ _ Hlookup).
  reflexivity.
Qed.

(** The defaults [max_seconds=10, interval=1], on a ticket whose ledger
    entry exists. *)
Lemma cancel_with_retry_raises_AttributeError_witness :
  let w := with_bonus_db
             (BonusApp.mkDb [mkPrivilege 1 "max" "GOLD" 540]
                [mkPrivilegeHistory 1 1 1000%N 100%Q 40 "FILL_IN_BALANCE"] 2)
             (demo_world 100%Q 500 [] ∅) in
  Gateway.cancel_with_retry 1 "max" 1000%N 10 1 w
  = Some (Raise (AttributeError "get_user_privelge_transaction"), w).
Proof.
  intros w.
  apply (cancel_with_retry_raises_AttributeError 0 "max" 1000%N 10 1 w).
  lia.
Defined.

(** Whatever the deadline, [cancel_with_retry] never changes the world: the
    compensating delete is never performed. *)
Lemma cancel_with_retry_never_deletes fuel x_user_name ticket_uid max_seconds interval w :
  exists r,
    Gateway.cancel_with_retry (S fuel) x_user_name ticket_uid max_seconds interval w
    = Some (r, w).
Proof.
  destruct (Z_lt_le_dec 0 max_seconds) as [Hpos|Hneg].
  - eexists. unfold Gateway.cancel_with_retry. simpl.
    now rewrite (deadline_ahead _ _ Hpos).
  - exists (Ok tt). unfold Gateway.cancel_with_retry. simpl.
    now rewrite (deadline_passed _ _ Hneg).
Qed.

(** ** Best-effort aggregation on /me *)

(** C8, as the code has it: while the loyalty breaker is open and cooling
    down, GET /me never returns a response.  The account is treated as
    absent, and the degraded reply is then built with [privilege=""], which
    the response model rejects; the handler ends with an exception (a
    ValidationError, unless the ticket listing already failed with another
    one). *)
Theorem me_fails_when_loyalty_breaker_open
    (x_user_name : string) (w : World) (cb : CircuitBreaker) :
  breakers w !! PrivilegesService.NAME = Some cb ->
  cooling_down (clock w) cb ->
  exists e, fst (Gateway.get_current_user_profile x_user_name w) = Raise e.
Proof.
  intros Hcb Hcool.
  unfold Gateway.get_current_user_profile.
  unfold bind at 1. unfold try_except_circuit_open at 1. unfold bind at 1.
  unfold PrivilegesService.get_user_privilege.
  rewrite (wrap_cb_rejected _ _ _ _ Hcb Hcool).
  cbn [ret]. unfold bind at 1.
  destruct (try_except_circuit_open _ _ w) as [[formatted_tickets|e] w1].
  - eexists. reflexivity.
  - eexists. reflexivity.
Qed.

Lemma me_fails_when_loyalty_breaker_open_witness :
  exists e,
    fst (Gateway.get_current_user_profile "max"
           (demo_world (201 # 2) 500 []
              {["Bonus Service" := opened_at_100 "Bonus Service"]}))
    = Raise e.
Proof.
  apply (me_fails_when_loyalty_breaker_open "max" _ (opened_at_100 "Bonus Service")).
  - reflexivity.
  - split; reflexivity.
Defined.

(** In that world the tickets are listed (there is none) and the exception
    is the ValidationError of the response model. *)
Lemma me_loyalty_breaker_open_ValidationError :
  fst (Gateway.get_current_user_profile "max"
         (demo_world (201 # 2) 500 []
            {["Bonus Service" := opened_at_100 "Bonus Service"]}))
  = Raise ValidationError.
Proof. reflexivity. Qed.

(** The other half of the aggregation works: with the ticket breaker open
    and the account found, the reply carries an empty ticket list. *)
Lemma me_ticket_breaker_open_empty_list :
  fst (Gateway.get_current_user_profile "max"
         (demo_world (201 # 2) 500 []
            {["Ticket Service" := opened_at_100 "Ticket Service"]}))
  = Ok (Gateway.Returned (mkUserInfoResponse [] (mkPrivilegeShortInfo 500 GOLD))).
Proof. reflexivity. Qed.

(** ** What each client operation does to the world *)

Ltac client_unfold :=
  unfold FlightsService.get_flight_by_number, FlightsService.get_flight_by_number_fn,
    TicketsService.get_ticket_by_uid, TicketsService.get_ticket_by_uid_fn,
    TicketsService.get_user_tickets, TicketsService.get_user_tickets_fn,
    PrivilegesService.get_user_privilege, PrivilegesService.get_user_privilege_fn,
    PrivilegesService.get_user_privilege_transaction,
    PrivilegesService.get_user_privilege_transaction_fn,
    TicketsService.create_new_ticket, TicketsService.remove_ticket,
    PrivilegesService.add_privilege_transaction,
    PrivilegesService.revert_transaction,
    FlightsApp.get_flight_by_number, TicketsApp.get_ticket_details,
    TicketsApp.get_user_tickets,
    BonusApp.get_privilege, BonusApp.get_privilege_transaction,
    same_data, same_env, sent, ledger_entry in *.

Ltac client_spec :=
  intros; client_unfold; io_unfold; io_cases;
  repeat split; eauto; try congruence.

Lemma same_env_refl w : same_env w w.
Proof. repeat split. Qed.

Lemma same_env_trans w1 w2 w3 : same_env w1 w2 -> same_env w2 w3 -> same_env w1 w3.
Proof. unfold same_env. intuition congruence. Qed.

Lemma get_flight_by_number_spec flight_number w r w' :
  FlightsService.get_flight_by_number flight_number w = (r, w') ->
  same_data w w'
  /\ exists l, sent w w' l
       /\ (l = [] \/ l = [GET_flight flight_number])
       /\ forall x, r = Ok x ->
            l = [GET_flight flight_number]
            /\ fst (FlightsApp.get_flight_by_number flight_number (flights_db w))
               = Success 200 x.
Proof.
  client_spec.
  all: try (exists []; rewrite app_nil_r; intuition congruence).
  all: eexists; split; [reflexivity|]; split; [auto|]; intros; simplify_eq; auto.
Qed.

Ltac read_spec :=
  client_spec;
  try (exists []; rewrite app_nil_r; intuition congruence);
  (eexists; split; [reflexivity|]; split; [auto|]; intros; simplify_eq; auto).

Lemma get_user_privilege_spec username w r w' :
  PrivilegesService.get_user_privilege username w = (r, w') ->
  same_data w w'
  /\ exists l, sent w w' l
       /\ (l = [] \/ l = [GET_privilege username])
       /\ forall x, r = Ok x ->
            l = [GET_privilege username]
            /\ x = BonusApp.account_by_username username (bonus_db w).
Proof. read_spec. Qed.

Lemma get_user_privilege_transaction_spec username ticket_uid w r w' :
  PrivilegesService.get_user_privilege_transaction username ticket_uid w = (r, w') ->
  same_data w w'
  /\ exists l, sent w w' l
       /\ (l = [] \/ l = [GET_privilege_history_entry username ticket_uid])
       /\ forall x, r = Ok x ->
            l = [GET_privilege_history_entry username ticket_uid]
            /\ x = ledger_entry username ticket_uid (bonus_db w).
Proof. read_spec. Qed.

Lemma get_ticket_by_uid_spec ticket_uid w r w' :
  TicketsService.get_ticket_by_uid ticket_uid w = (r, w') ->
  same_data w w'
  /\ exists l, sent w w' l
       /\ (l = [] \/ l = [GET_ticket ticket_uid])
       /\ forall x, r = Ok x ->
            l = [GET_ticket ticket_uid]
            /\ x = TicketsApp.first_by_uid ticket_uid (tickets_db w).
Proof. read_spec. Qed.

Ltac write_spec :=
  intros; client_unfold;
  unfold TicketsApp.create_new_ticket, TicketsApp.remove_ticket,
    BonusApp.add_transaction, BonusApp.remove_transaction in *;
  io_unfold; io_cases; repeat split; eauto.

Lemma add_privilege_transaction_spec username tx w r w' :
  PrivilegesService.add_privilege_transaction username tx w = (r, w') ->
  same_env w w' /\ tickets_db w' = tickets_db w /\ breakers w' = breakers w
  /\ sent w w' [POST_privilege_history username tx]
  /\ ((r = Ok tt
       /\ BonusApp.add_transaction username tx (bonus_db w) = (Success 201 tt, bonus_db w'))
      \/ (exists e, r = Raise e /\ bonus_db w' = bonus_db w)).
Proof. write_spec. Qed.

Lemma revert_transaction_spec username ticket_uid w r w' :
  PrivilegesService.revert_transaction username ticket_uid w = (r, w') ->
  same_env w w' /\ tickets_db w' = tickets_db w /\ breakers w' = breakers w
  /\ sent w w' [DELETE_privilege_history_entry username ticket_uid]
  /\ ((r = Ok tt
       /\ BonusApp.remove_transaction username ticket_uid (bonus_db w)
          = (Success 204 tt, bonus_db w'))
      \/ (exists e, r = Raise e /\ bonus_db w' = bonus_db w)).
Proof. write_spec. Qed.

Lemma create_new_ticket_spec ticket_uid username flight_number price w r w' :
  TicketsService.create_new_ticket ticket_uid username flight_number price w = (r, w') ->
  same_env w w' /\ bonus_db w' = bonus_db w /\ breakers w' = breakers w
  /\ sent w w' [POST_ticket (mkTicketCreateRequest ticket_uid username flight_number price)]
  /\ ((r = Ok tt
       /\ TicketsApp.create_new_ticket
            (mkTicketCreateRequest ticket_uid username flight_number price) (tickets_db w)
          = (Success 201 tt, tickets_db w'))
      \/ (exists e, r = Raise e /\ tickets_db w' = tickets_db w)).
Proof. write_spec. Qed.

Lemma remove_ticket_spec ticket_uid w r w' :
  TicketsService.remove_ticket ticket_uid w = (r, w') ->
  same_env w w' /\ bonus_db w' = bonus_db w /\ breakers w' = breakers w
  /\ sent w w' [DELETE_ticket ticket_uid]
  /\ ((r = Ok tt
       /\ TicketsApp.remove_ticket ticket_uid (tickets_db w) = (Success 204 tt, tickets_db w'))
      \/ (exists e, r = Raise e /\ tickets_db w' = tickets_db w)).
Proof. write_spec. Qed.

(** ** The purchase saga *)

Ltac ret_inv H := unfold ret, raise in H; inversion H; subst; clear H.

(** [Gateway.pay] against the specification's split: it sends exactly the
    ledger append the specification asks for, and when it returns it
    returns the specification's [(cash_payment, bonus_payment)]. *)
Lemma pay_spec req user flight account now tid w r w' :
  Gateway.pay req user flight account now tid w = (r, w') ->
  let ledger := spec_ledger_write (paidFromBalance req) (p_id account) tid now
                  (p_balance account) (fr_price flight) in
  same_env w w' /\ tickets_db w' = tickets_db w /\ breakers w' = breakers w
  /\ sent w w' (ledger_requests user ledger)
  /\ ((r = Ok (spec_cash_payment (paidFromBalance req) (p_balance account) (fr_price flight),
               spec_bonus_payment (paidFromBalance req) (p_balance account) (fr_price flight))
       /\ match ledger with
          | Some tx => BonusApp.add_transaction user tx (bonus_db w)
                       = (Success 201 tt, bonus_db w')
          | None => bonus_db w' = bonus_db w
          end)
      \/ (exists e, r = Raise e /\ bonus_db w' = bonus_db w /\ ledger <> None)).
Proof.
  unfold Gateway.pay, spec_ledger_write, spec_cash_payment, spec_bonus_payment,
    ledger_requests.
  intros H. destruct (paidFromBalance req).
  - destruct (0 <? Z.min (p_balance account) (fr_price flight)) eqn:Hpos.
    + apply bind_inv in H as [(a & w1 & H1 & H)|(e & H1 & ->)];
        apply add_privilege_transaction_spec in H1;
        destruct H1 as (He & Ht & Hb & Hs & [(Hr & Hdb)|(e' & Hr & Hdb)]);
        simplify_eq; try ret_inv H; simpl; eauto 10.
    + unfold bind in H. ret_inv H. simpl.
      repeat split; auto. unfold sent. simpl. now rewrite app_nil_r.
  - apply bind_inv in H as [(a & w1 & H1 & H)|(e & H1 & ->)];
      apply add_privilege_transaction_spec in H1;
      destruct H1 as (He & Ht & Hb & Hs & [(Hr & Hdb)|(e' & Hr & Hdb)]);
      simplify_eq; try ret_inv H; simpl; rewrite ?Z.sub_0_r; eauto 10.
Qed.

Lemma sent_nil w : sent w w [].
Proof. unfold sent. now rewrite app_nil_r. Qed.

Lemma sent_app w1 w2 w3 l1 l2 :
  sent w1 w2 l1 -> sent w2 w3 l2 -> sent w1 w3 (l1 ++ l2).
Proof. unfold sent. intros -> ->. now rewrite app_assoc. Qed.

Lemma same_data_trans w1 w2 w3 : same_data w1 w2 -> same_data w2 w3 -> same_data w1 w3.
Proof. unfold same_data, same_env. intuition congruence. Qed.

Lemma purchase_ticket_outcome req user w r w' :
  Gateway.purchase_ticket req user w = (r, w') -> purchase_outcome req user w r w'.
Proof.
  unfold Gateway.purchase_ticket. intros H.
  (* step 1: the flight *)
  apply bind_inv in H as [(flight & w1 & H1 & H)|(e & H1 & ->)];
    apply get_flight_by_number_spec in H1;
    destruct H1 as (Hd1 & l1 & Hs1 & Hl1 & Hok1).
  2:{ apply stopped_before_payment with (l := l1); auto.
      destruct Hl1 as [->| ->]; intros x Hx; simpl in *; intuition. }
  destruct (Hok1 flight eq_refl) as [-> Hflight]. clear Hok1 Hl1.
  cbn [Gateway.truthy negb] in H.
  (* step 2: the account *)
  apply bind_inv in H as [(found & w2 & H2 & H)|(e & H2 & ->)];
    apply get_user_privilege_spec in H2;
    destruct H2 as (Hd2 & l2 & Hs2 & Hl2 & Hok2);
    pose proof (same_data_trans _ _ _ Hd1 Hd2) as Hd12.
  2:{ apply stopped_before_payment with (l := ([GET_flight (flightNumber req)] ++ l2)%list); auto.
      - eapply sent_app; eauto.
      - destruct Hl2 as [->| ->]; intros x Hx; simpl in *; intuition. }
  destruct (Hok2 found eq_refl) as [-> Hfound]. clear Hok2 Hl2.
  pose proof (sent_app _ _ _ _ _ Hs1 Hs2) as Hs12. simpl in Hs12.
  destruct found as [account|].
  2:{ ret_inv H. apply stopped_before_payment with (l := [GET_flight (flightNumber req); GET_privilege user]); auto.
      apply incl_refl. }
  assert (Hres : resolved req user w flight account).
  { split; [exact Hflight|]. destruct Hd1 as (_ & _ & Hb). now rewrite <- Hb. }
  (* the instant and the ticket identifier *)
  unfold bind at 1 in H. cbn [Gateway.datetime_now Gateway.time_time] in H.
  unfold bind at 1 in H. cbn [Gateway.uuid4] in H.
  destruct Hd12 as ((Hclock & Hgen & Hdrawn & Hfl) & Htk & Hbn).
  rewrite Hclock, Hgen, Hdrawn in H.
  remember (with_uuid_drawn (S (uuid_drawn w)) w2) as w3 eqn:Hw3.
  assert (Hs3 : sent w w3 [GET_flight (flightNumber req); GET_privilege user])
    by (subst w3; exact Hs12).
  assert (Htk3 : tickets_db w3 = tickets_db w) by (subst w3; exact Htk).
  assert (Hbn3 : bonus_db w3 = bonus_db w) by (subst w3; exact Hbn).
  clear Hw3 Hs1 Hs2 Hs12 Hd1 Hd2 Hfound.
  (* step 3: the payment split and the ledger write *)
  apply bind_inv in H as [(split & w4 & H3 & H)|(e & H3 & ->)];
    apply pay_spec in H3; cbv zeta in H3;
    fold (ledger_of req w flight account) in H3;
    destruct H3 as (_ & Htk4 & _ & Hs4 & [(Hr & Hdb)|(e' & Hr & Hdb & Hsome)]);
    simplify_eq; rewrite Hbn3 in Hdb.
  2:{ destruct (ledger_of req w flight account) as [tx|] eqn:Hl; [|congruence].
      eapply ledger_write_failed; eauto; try congruence.
      eapply sent_app in Hs4; [|exact Hs3]. exact Hs4. }
  pose proof (sent_app _ _ _ _ _ Hs3 Hs4) as Hs34. cbn [fst snd] in H.
  fold (ledger_applied user (ledger_of req w flight account) w w4) in Hdb.
  (* step 4: the account again *)
  apply bind_inv in H as [(updated & w5 & H4 & H)|(e & H4 & ->)];
    apply get_user_privilege_spec in H4;
    destruct H4 as (((_ & _ & _ & _) & Htk5 & Hbn5) & l5 & Hs5 & Hl5 & Hok5).
  2:{ eapply stopped_after_payment with (post := l5); eauto.
      - eapply sent_app in Hs5; [|exact Hs34]. rewrite <- app_assoc in Hs5. exact Hs5.
      - tauto.
      - unfold ledger_applied in *. now rewrite Hbn5.
      - congruence. }
  destruct (Hok5 updated eq_refl) as [-> Hupd]. clear Hok5 Hl5.
  pose proof (sent_app _ _ _ _ _ Hs34 Hs5) as Hs345. rewrite <- app_assoc in Hs345.
  assert (Hdb5 : ledger_applied user (ledger_of req w flight account) w w5)
    by (unfold ledger_applied in *; now rewrite Hbn5).
  (* step 5: the ticket *)
  fold (ticket_of req user w flight account) in H.
  apply bind_inv in H as [(u & w6 & H5 & H)|(e & H5 & ->)];
    apply create_new_ticket_spec in H5;
    fold (ticket_of req user w flight account) in H5;
    destruct H5 as (_ & Hbn6 & _ & Hs6 & [(Hr & Hcreate)|(e' & Hr & Htk6)]);
    simplify_eq;
    pose proof (sent_app _ _ _ _ _ Hs345 Hs6) as Hs;
    rewrite <- !app_assoc in Hs; simpl in Hs.
  2:{ eapply stopped_after_payment; eauto.
      - exact Hs.
      - unfold ledger_applied in *. now rewrite Hbn6.
      - congruence. }
  (* step 6: the response *)
  assert (Hdb6 : ledger_applied user (ledger_of req w flight account) w w6)
    by (unfold ledger_applied in *; now rewrite Hbn6).
  rewrite Htk5, Htk4, Htk3 in Hcreate.
  rewrite <- Hbn5, <- Hbn6 in H.
  destruct (BonusApp.account_by_username user (bonus_db w6)) as [updated|] eqn:Hupd.
  2:{ ret_inv H. eapply ticket_stored; eauto. }
  unfold bind, Gateway.PrivilegeShortInfo_init in H.
  destruct (parse_PrivilegeStatus (p_status updated)) as [status|] eqn:Hstatus;
    ret_inv H; eapply ticket_stored; eauto.
  right. exists updated, status. auto.
Qed.

(** An accepted append adds one entry at the end of the ledger, for the
    caller's account. *)
Lemma add_transaction_history user tx db db' account :
  BonusApp.account_by_username user db = Some account ->
  BonusApp.add_transaction user tx db = (Success 201 tt, db') ->
  BonusApp.history db'
  = (BonusApp.history db
       ++ [mkPrivilegeHistory (BonusApp.next_id db) (p_id account) (at_ticket_uid tx)
             (at_datetime tx) (at_balance_diff tx) (at_operation_type tx)])%list.
Proof.
  unfold BonusApp.add_transaction. intros ->.
  destruct (parse_OperationType _); intros H; now inversion H.
Qed.

Lemma ledger_applied_history req user w w' flight account :
  resolved req user w flight account ->
  ledger_applied user (ledger_of req w flight account) w w' ->
  BonusApp.history (bonus_db w')
  = (BonusApp.history (bonus_db w)
       ++ List.map (stored_entry (bonus_db w))
            (option_to_list (ledger_of req w flight account)))%list.
Proof.
  intros [_ Hacc] Happ. unfold ledger_applied in Happ.
  destruct (ledger_of req w flight account) as [tx|] eqn:Hl; simpl.
  - rewrite (add_transaction_history user tx _ _ account Hacc Happ). unfold stored_entry.
    replace (at_privilege_id tx) with (p_id account); [reflexivity|].
    unfold ledger_of, spec_ledger_write in Hl.
    repeat (break_match; simplify_eq); reflexivity.
  - rewrite Happ. now rewrite app_nil_r.
Qed.

(** C1. Payment split of a completed purchase.  With [balance] the balance
    of the caller's account and [price] the catalog price of the flight when
    the saga starts, and [ticket_uid] the identifier drawn by the saga:
    paying from balance, the reply has paidByBonuses = min(balance, price) and
    paidByMoney = price - paidByBonuses, and one DEBIT_THE_ACCOUNT entry of
    paidByBonuses tagged [ticket_uid] is appended if paidByBonuses > 0, none
    otherwise; not paying from balance, paidByMoney = price, paidByBonuses = 0
    and exactly one FILL_IN_BALANCE entry of paidByMoney // 10 tagged
    [ticket_uid] is appended.  "Appended" holds of the requests sent (the
    ledger appends among them are exactly [entries]) and of the ledger
    store afterwards. *)
Theorem purchase_payment_split
    (req : TicketPurchaseRequest) (user : string) (w : World)
    (resp : TicketPurchaseResponse) (w' : World) :
  Gateway.purchase_ticket req user w = (Ok (Gateway.Purchased resp), w') ->
  exists flight account entries,
    resolved req user w flight account
    /\ let balance := p_balance account in
       let price := fr_price flight in
       let ticket_uid := uuid_gen w (uuid_drawn w) in
       pr_ticketUid resp = ticket_uid
       /\ pr_price resp = price
       /\ sent w w'
            ([GET_flight (flightNumber req); GET_privilege user]
             ++ List.map (POST_privilege_history user) entries
             ++ [GET_privilege user;
                 POST_ticket (mkTicketCreateRequest ticket_uid user
                                (fr_flightNumber flight) (pr_paidByMoney resp))])
       /\ BonusApp.history (bonus_db w')
          = (BonusApp.history (bonus_db w)
               ++ List.map (stored_entry (bonus_db w)) entries)%list
       /\ if paidFromBalance req then
            pr_paidByBonuses resp = Z.min balance price
            /\ pr_paidByMoney resp = price - pr_paidByBonuses resp
            /\ entries
               = (if 0 <? pr_paidByBonuses resp
                  then [mkAddTransactionRequest (p_id account) ticket_uid (clock w)
                          (pr_paidByBonuses resp) "DEBIT_THE_ACCOUNT"]
                  else [])
          else
            pr_paidByMoney resp = price
            /\ pr_paidByBonuses resp = 0
            /\ entries
               = [mkAddTransactionRequest (p_id account) ticket_uid (clock w)
                    (pr_paidByMoney resp / 10) "FILL_IN_BALANCE"].
Proof.
  intros H. apply purchase_ticket_outcome in H.
  inversion H as [r0 w0 l _ _ _ Hno | | |
                  flight account r0 w0 Hres Hsent Happ Hcreate Hreply];
    subst.
  - exfalso. now apply (Hno resp).
  - destruct Hreply as [[e He]|(updated & status & _ & _ & Heq)]; [discriminate|].
    inversion Heq; subst resp; clear Heq.
    exists flight, account, (option_to_list (ledger_of req w flight account)).
    split; [exact Hres|]. cbv zeta.
    split; [reflexivity|]. split; [reflexivity|].
    split; [exact Hsent|].
    split; [now apply (ledger_applied_history req user w w' flight account)|].
    unfold response_of, ledger_of, spec_ledger_write, spec_cash_payment,
      spec_bonus_payment.
    cbn [pr_paidByBonuses pr_paidByMoney].
    destruct (paidFromBalance req).
    + split; [reflexivity|]. split; [reflexivity|].
      now destruct (0 <? _).
    + rewrite Z.sub_0_r. auto.
Qed.

Lemma purchase_payment_split_witness :
  let w := demo_world 100%Q 500 [] ∅ in
  let w' := snd (Gateway.purchase_ticket scenario1_request "max" w) in
  exists flight account entries,
    resolved scenario1_request "max" w flight account
    /\ pr_ticketUid scenario1_response = 1000%N
    /\ pr_price scenario1_response = fr_price flight
    /\ sent w w'
         ([GET_flight "AFL031"; GET_privilege "max"]
          ++ List.map (POST_privilege_history "max") entries
          ++ [GET_privilege "max";
              POST_ticket (mkTicketCreateRequest 1000%N "max" (fr_flightNumber flight) 0)])
    /\ BonusApp.history (bonus_db w')
       = (BonusApp.history (bonus_db w)
            ++ List.map (stored_entry (bonus_db w)) entries)%list
    /\ 400 = Z.min (p_balance account) (fr_price flight)
    /\ 0 = fr_price flight - 400
    /\ entries
       = [mkAddTransactionRequest (p_id account) 1000%N 100%Q 400 "DEBIT_THE_ACCOUNT"].
Proof.
  intros w w'.
  assert (Hrun : Gateway.purchase_ticket scenario1_request "max" w
                 = (Ok (Gateway.Purchased scenario1_response), w'))
    by (vm_compute; reflexivity).
  exact (purchase_payment_split scenario1_request "max" w scenario1_response w' Hrun).
Defined.

(** Scenarios 2 and 3 of the specification. *)
Example purchase_scenario2 :
  fst (Gateway.purchase_ticket (mkTicketPurchaseRequest "AFL031" 400 true) "max"
         (demo_world 100%Q 300 [] ∅))
  = Ok (Gateway.Purchased
          (mkTicketPurchaseResponse 1000%N "AFL031" "Saint Petersburg Pulkovo"
             "Moscow Sheremetyevo" 100%Q 400 100 300 PAID (mkPrivilegeShortInfo 0 GOLD))).
Proof. vm_compute. reflexivity. Qed.

Example purchase_scenario3 :
  let run := Gateway.purchase_ticket (mkTicketPurchaseRequest "AFL031" 400 false) "max"
               (demo_world 100%Q 500 [] ∅) in
  fst run
  = Ok (Gateway.Purchased
          (mkTicketPurchaseResponse 1000%N "AFL031" "Saint Petersburg Pulkovo"
             "Moscow Sheremetyevo" 100%Q 400 400 0 PAID (mkPrivilegeShortInfo 540 GOLD)))
  /\ BonusApp.history (bonus_db (snd run))
     = [mkPrivilegeHistory 1 1 1000%N 100%Q 40 "FILL_IN_BALANCE"].
Proof. split; vm_compute; reflexivity. Qed.

(** ** Order of the writes of the purchase saga *)

Ltac in_cases :=
  repeat match goal with
         | H : In _ (_ ++ _)%list |- _ => apply in_app_or in H; destruct H
         | H : In _ (ledger_requests _ ?o) |- _ =>
             unfold ledger_requests in H; destruct o eqn:?; simpl in H
         | H : In _ (_ :: _) |- _ => destruct H
         | H : In _ [] |- _ => destruct H
         | H : False |- _ => destruct H
         | H : incl ?l _, H' : In _ ?l |- _ => apply H in H'
         | H : @eq Request _ _ |- _ => discriminate H || (inversion H; subst; clear H)
         | H : _ \/ _ |- _ => destruct H
         end.

(** C4. In every run of the purchase saga the requests it sends split in
    two: [before], which holds every ledger append and no ticket write, and
    [after], which holds every ticket write and no ledger append; so a
    ledger write always precedes the ticket write.  No ledger delete is
    ever sent.  And whenever a ticket write was attempted after a ledger
    append, whatever the ticket write's outcome, the ledger store at the
    end is the store as the accepted append left it: the entry is there. *)
Theorem purchase_ledger_write_before_ticket_write
    (req : TicketPurchaseRequest) (user : string) (w : World)
    (r : Res Gateway.PurchaseReply) (w' : World) :
  Gateway.purchase_ticket req user w = (r, w') ->
  exists before after,
    sent w w' (before ++ after)
    /\ (forall body, ~ In (POST_ticket body) before)
    /\ (forall u tx, ~ In (POST_privilege_history u tx) after)
    /\ (forall u t, ~ In (DELETE_privilege_history_entry u t) (before ++ after))
    /\ (forall u tx body,
           In (POST_privilege_history u tx) before ->
           In (POST_ticket body) after ->
           BonusApp.add_transaction u tx (bonus_db w) = (Success 201 tt, bonus_db w')
           /\ BonusApp.history (bonus_db w')
              = (BonusApp.history (bonus_db w) ++ [stored_entry (bonus_db w) tx])%list).
Proof.
  intros H. apply purchase_ticket_outcome in H.
  inversion H as [r0 w0 l Hd Hsent Hincl Hno
                 | flight account tx e w0 Hres Hl Hsent Hbn Htk
                 | flight account post e w0 Hres Hsent Hpost Happ Htk
                 | flight account r0 w0 Hres Hsent Happ Hcreate Hreply];
    subst.
  - exists l, []. rewrite app_nil_r.
    repeat split; auto; intros; try intro; in_cases.
  - eexists _, []. rewrite app_nil_r.
    split; [exact Hsent|]. repeat split; intros; try intro; in_cases.
  - exists ([GET_flight (flightNumber req); GET_privilege user]
            ++ ledger_requests user (ledger_of req w flight account))%list, post.
    rewrite <- app_assoc. split; [exact Hsent|].
    pose proof (ledger_applied_history req user w w' flight account Hres Happ) as Hhist.
    unfold ledger_applied, ledger_requests in *.
    destruct (ledger_of req w flight account) as [tx0|];
      destruct Hpost as [-> | [-> | ->]]; simpl in *;
      repeat split; intros; try intro; in_cases; auto.
  - exists ([GET_flight (flightNumber req); GET_privilege user]
            ++ ledger_requests user (ledger_of req w flight account))%list,
           [GET_privilege user; POST_ticket (ticket_of req user w flight account)].
    rewrite <- app_assoc. split; [exact Hsent|].
    pose proof (ledger_applied_history req user w w' flight account Hres Happ) as Hhist.
    unfold ledger_applied, ledger_requests in *.
    destruct (ledger_of req w flight account) as [tx0|]; simpl in *;
      repeat split; intros; try intro; in_cases; auto.
Qed.

(** The failure window, replayed: the ticket store is unreachable when the
    fifth request (the ticket write) is sent.  The saga raises, no ticket
    exists, and the FILL_IN_BALANCE entry stays in the ledger. *)
Lemma purchase_ledger_write_before_ticket_write_witness :
  let w := demo_world 100%Q 500 [Healthy; Healthy; Healthy; Healthy; Unreachable] ∅ in
  let req := mkTicketPurchaseRequest "AFL031" 400 false in
  let run := Gateway.purchase_ticket req "max" w in
  fst run = Raise ConnectionError
  /\ TicketsApp.rows (tickets_db (snd run)) = []
  /\ BonusApp.history (bonus_db (snd run))
     = [mkPrivilegeHistory 1 1 1000%N 100%Q 40 "FILL_IN_BALANCE"]
  /\ exists before after,
      sent w (snd run) (before ++ after)
      /\ (forall body, ~ In (POST_ticket body) before)
      /\ (forall u tx, ~ In (POST_privilege_history u tx) after)
      /\ (forall u t, ~ In (DELETE_privilege_history_entry u t) (before ++ after))
      /\ (forall u tx body,
             In (POST_privilege_history u tx) before ->
             In (POST_ticket body) after ->
             BonusApp.add_transaction u tx (bonus_db w)
             = (Success 201 tt, bonus_db (snd run))
             /\ BonusApp.history (bonus_db (snd run))
                = (BonusApp.history (bonus_db w) ++ [stored_entry (bonus_db w) tx])%list).
Proof.
  intros w req run.
  split; [vm_compute; reflexivity|].
  split; [vm_compute; reflexivity|].
  split; [vm_compute; reflexivity|].
  assert (Hrun : Gateway.purchase_ticket req "max" w = (fst run, snd run))
    by (vm_compute; reflexivity).
  exact (purchase_ledger_write_before_ticket_write req "max" w (fst run) (snd run) Hrun).
Defined.

(** ** The cancel saga *)

Section Tables.
Context {A : Type} (key : A -> Z).

Lemma filter_keeps_others (x : A) (l : list A) :
  (forall r, In r l -> key r <> key x) ->
  List.filter (fun r => negb (key r =? key x)) l = l.
Proof.
  induction l as [|a l IH]; intros Hne; [reflexivity|].
  simpl. destruct (key a =? key x) eqn:E.
  - apply Z.eqb_eq in E. exfalso. apply (Hne a); [now left|exact E].
  - simpl. f_equal. apply IH. intros r Hr. apply Hne. now right.
Qed.

(** Deleting by primary key removes exactly the row that carries it. *)
Lemma filter_out_unique (x : A) (l : list A) :
  List.NoDup (List.map key l) -> In x l ->
  exists l1 l2, l = (l1 ++ x :: l2)%list
                /\ List.filter (fun r => negb (key r =? key x)) l = (l1 ++ l2)%list.
Proof.
  intros Hnd Hin. apply in_split in Hin. destruct Hin as (l1 & l2 & ->).
  exists l1, l2. split; [reflexivity|].
  rewrite List.map_app in Hnd. simpl in Hnd.
  apply NoDup_remove in Hnd. destruct Hnd as [_ Hnotin].
  rewrite List.filter_app. simpl. rewrite Z.eqb_refl. simpl.
  rewrite !filter_keeps_others; [reflexivity| |];
    intros r Hr Heq; apply Hnotin; rewrite <- Heq;
    apply in_or_app; [right|left]; now apply in_map.
Qed.
End Tables.

Lemma find_all_false {A} (f : A -> bool) (l : list A) :
  (forall r, In r l -> f r = false) -> List.find f l = None.
Proof.
  induction l as [|a l IH]; intros H; [reflexivity|].
  simpl. rewrite (H a) by now left. apply IH. intros r Hr. apply H. now right.
Qed.

(** What an accepted ticket delete does to a well-formed table. *)
Lemma remove_ticket_table ticket_uid db db' :
  tickets_wf db ->
  TicketsApp.remove_ticket ticket_uid db = (Success 204 tt, db') ->
  exists t l1 l2,
    TicketsApp.first_by_uid ticket_uid db = Some t
    /\ t_ticket_uid t = ticket_uid
    /\ TicketsApp.rows db = (l1 ++ t :: l2)%list
    /\ TicketsApp.rows db' = (l1 ++ l2)%list
    /\ TicketsApp.first_by_uid ticket_uid db' = None.
Proof.
  intros (Hid & Huid & _). unfold TicketsApp.remove_ticket.
  destruct (TicketsApp.first_by_uid ticket_uid db) as [t|] eqn:Hfind; [|discriminate].
  intros H. inversion H; subst db'; clear H.
  unfold TicketsApp.first_by_uid in Hfind.
  apply List.find_some in Hfind. destruct Hfind as [Hin Heq].
  apply N.eqb_eq in Heq.
  destruct (filter_out_unique t_id t _ Hid Hin) as (l1 & l2 & Hrows & Hfilter).
  exists t, l1, l2. repeat split; auto.
  unfold TicketsApp.first_by_uid. cbn [TicketsApp.rows]. rewrite Hfilter.
  apply find_all_false. intros r Hr. apply N.eqb_neq. intros Hr_uid.
  rewrite Hrows, List.map_app in Huid. simpl in Huid.
  apply NoDup_remove in Huid. destruct Huid as [_ Hnotin].
  apply Hnotin. rewrite Heq, <- Hr_uid, <- List.map_app. now apply in_map.
Qed.

(** What an accepted ledger delete does to a well-formed ledger. *)
Lemma remove_transaction_ledger username ticket_uid db db' :
  ledger_wf db ->
  BonusApp.remove_transaction username ticket_uid db = (Success 204 tt, db') ->
  exists entry l1 l2,
    ledger_entry username ticket_uid db = Some entry
    /\ h_ticket_uid entry = ticket_uid
    /\ BonusApp.history db = (l1 ++ entry :: l2)%list
    /\ BonusApp.history db' = (l1 ++ l2)%list.
Proof.
  intros [Hwf _]. unfold BonusApp.remove_transaction, ledger_entry.
  destruct (BonusApp.account_by_username username db) as [account|]; [|discriminate].
  destruct (BonusApp.entry_of account ticket_uid db) as [entry|] eqn:Hfind; [|discriminate].
  intros H. inversion H; subst db'; clear H.
  unfold BonusApp.entry_of in Hfind.
  apply List.find_some in Hfind. destruct Hfind as [Hin Heq].
  apply andb_true_iff in Heq. destruct Heq as [_ Heq]. apply N.eqb_eq in Heq.
  destruct (filter_out_unique h_id entry _ Hwf Hin) as (l1 & l2 & Hrows & Hfilter).
  exists entry, l1, l2. auto.
Qed.

(** A cancel that returns 204 went through every step of the saga. *)
Lemma cancel_ticket_success ticket_uid user w w' :
  Gateway.cancel_ticket ticket_uid user w = (Ok (Gateway.Returned tt), w') ->
  exists t,
    TicketsApp.first_by_uid ticket_uid (tickets_db w) = Some t
    /\ t_username t = user /\ t_status t = "PAID"
    /\ TicketsApp.remove_ticket ticket_uid (tickets_db w) = (Success 204 tt, tickets_db w')
    /\ match ledger_entry user ticket_uid (bonus_db w) with
       | Some _ =>
           BonusApp.remove_transaction user ticket_uid (bonus_db w)
           = (Success 204 tt, bonus_db w')
           /\ sent w w' [GET_ticket ticket_uid;
                         GET_privilege_history_entry user ticket_uid;
                         DELETE_privilege_history_entry user ticket_uid;
                         DELETE_ticket ticket_uid]
       | None =>
           bonus_db w' = bonus_db w
           /\ sent w w' [GET_ticket ticket_uid;
                         GET_privilege_history_entry user ticket_uid;
                         DELETE_ticket ticket_uid]
       end.
Proof.
  unfold Gateway.cancel_ticket. intros H.
  apply bind_inv in H as [(found & w1 & H1 & H)|(e & _ & ?)]; [|discriminate].
  apply get_ticket_by_uid_spec in H1.
  destruct H1 as ((_ & Htk1 & Hbn1) & l1 & Hs1 & _ & Hok1).
  destruct (Hok1 found eq_refl) as [-> ->]. clear Hok1.
  destruct (TicketsApp.first_by_uid ticket_uid (tickets_db w)) as [t|] eqn:Hfind;
    [|ret_inv H].
  unfold Gateway.create_error_response in H.
  destruct (String.eqb (t_username t) user) eqn:Huser; cbn [negb] in H; [|ret_inv H].
  destruct (String.eqb (t_status t) "PAID") eqn:Hpaid; cbn [negb] in H; [|ret_inv H].
  apply String.eqb_eq in Huser, Hpaid.
  apply bind_inv in H as [(entry & w2 & H2 & H)|(e & _ & ?)]; [|discriminate].
  apply get_user_privilege_transaction_spec in H2.
  destruct H2 as ((_ & Htk2 & Hbn2) & l2 & Hs2 & _ & Hok2).
  destruct (Hok2 entry eq_refl) as [-> ->]. clear Hok2.
  rewrite Hbn1 in H.
  pose proof (sent_app _ _ _ _ _ Hs1 Hs2) as Hs12.
  exists t. split; [reflexivity|]. split; [exact Huser|]. split; [exact Hpaid|].
  destruct (ledger_entry user ticket_uid (bonus_db w)) as [entry|].
  - apply bind_inv in H as [(u & w3 & H3 & H)|(e & _ & ?)]; [|discriminate].
    apply revert_transaction_spec in H3.
    destruct H3 as (_ & Htk3 & _ & Hs3 & [(_ & Hdel)|(e & ? & _)]); [|discriminate].
    apply bind_inv in H as [(u' & w4 & H4 & H)|(e & _ & ?)]; [|discriminate].
    apply remove_ticket_spec in H4.
    destruct H4 as (_ & Hbn4 & _ & Hs4 & [(_ & Hrm)|(e & ? & _)]); [|discriminate].
    ret_inv H.
    rewrite Htk3, Htk2, Htk1 in Hrm. rewrite Hbn2, Hbn1, <- Hbn4 in Hdel.
    split; [exact Hrm|]. split; [exact Hdel|].
    exact (sent_app _ _ _ _ _ (sent_app _ _ _ _ _ Hs12 Hs3) Hs4).
  - unfold bind at 1 in H. cbn [ret] in H.
    apply bind_inv in H as [(u' & w4 & H4 & H)|(e & _ & ?)]; [|discriminate].
    apply remove_ticket_spec in H4.
    destruct H4 as (_ & Hbn4 & _ & Hs4 & [(_ & Hrm)|(e & ? & _)]); [|discriminate].
    ret_inv H.
    rewrite Htk2, Htk1 in Hrm.
    split; [exact Hrm|]. split; [congruence|].
    exact (sent_app _ _ _ _ _ Hs12 Hs4).
Qed.

(** Without a ticket of that identifier, a cancel never returns 204. *)
Lemma cancel_ticket_absent ticket_uid user w :
  TicketsApp.first_by_uid ticket_uid (tickets_db w) = None ->
  (forall w', Gateway.cancel_ticket ticket_uid user w <> (Ok (Gateway.Returned tt), w'))
  /\ (closed TicketsService.NAME w -> delivered w ->
      fst (Gateway.cancel_ticket ticket_uid user w)
      = Ok (Gateway.JSONResponse "Ticket does not exist" 404)).
Proof.
  intros Hnone. split.
  - intros w' H. apply cancel_ticket_success in H.
    destruct H as (t & Hfind & _). congruence.
  - intros Hclosed Hdel.
    pose proof (get_ticket_by_uid_404 ticket_uid w Hclosed Hdel Hnone) as H.
    unfold Gateway.cancel_ticket, bind.
    destruct (TicketsService.get_ticket_by_uid ticket_uid w) as [r w1].
    simpl in H. subst r. reflexivity.
Qed.

(** C5. A successful cancel (reply 204) of a ticket, on well-formed tables:
    the ticket was PAID and owned by the caller, and exactly its row leaves
    the tickets table; when the ledger holds an entry of the caller for that
    ticket identifier, exactly that entry leaves the ledger, and otherwise
    the ledger store is unchanged; and in any later world with the same
    tickets table, a second cancel of the identifier never returns 204: it
    raises, or, once the lookup reaches the store, answers 404 "Ticket does
    not exist". *)
Theorem cancel_deletes_ticket_and_ledger_entry
    (ticket_uid : UUID) (user : string) (w w' : World) :
  tickets_wf (tickets_db w) ->
  ledger_wf (bonus_db w) ->
  Gateway.cancel_ticket ticket_uid user w = (Ok (Gateway.Returned tt), w') ->
  (exists t l1 l2,
      TicketsApp.rows (tickets_db w) = (l1 ++ t :: l2)%list
      /\ t_ticket_uid t = ticket_uid /\ t_username t = user /\ t_status t = "PAID"
      /\ TicketsApp.rows (tickets_db w') = (l1 ++ l2)%list)
  /\ match ledger_entry user ticket_uid (bonus_db w) with
     | Some entry =>
         h_ticket_uid entry = ticket_uid
         /\ exists l1 l2,
             BonusApp.history (bonus_db w) = (l1 ++ entry :: l2)%list
             /\ BonusApp.history (bonus_db w') = (l1 ++ l2)%list
     | None => bonus_db w' = bonus_db w
     end
  /\ (forall w2,
         tickets_db w2 = tickets_db w' ->
         (forall w2', Gateway.cancel_ticket ticket_uid user w2
                      <> (Ok (Gateway.Returned tt), w2'))
         /\ (closed TicketsService.NAME w2 -> delivered w2 ->
             fst (Gateway.cancel_ticket ticket_uid user w2)
             = Ok (Gateway.JSONResponse "Ticket does not exist" 404))).
Proof.
  intros Htwf Hlwf H.
  apply cancel_ticket_success in H.
  destruct H as (t & Hfind & Huser & Hpaid & Hrm & Hledger).
  destruct (remove_ticket_table _ _ _ Htwf Hrm)
    as (t' & l1 & l2 & Hfind' & Huid & Hrows & Hrows' & Hgone).
  assert (t' = t) by congruence. subst t'.
  split; [|split].
  - exists t, l1, l2. auto.
  - destruct (ledger_entry user ticket_uid (bonus_db w)) as [entry|] eqn:Hentry.
    + destruct Hledger as [Hdel _].
      destruct (remove_transaction_ledger _ _ _ _ Hlwf Hdel)
        as (entry' & k1 & k2 & Hentry' & Hetag & Hhist & Hhist').
      assert (entry' = entry) by congruence. subst entry'.
      split; [exact Hetag|]. exists k1, k2. auto.
    + tauto.
  - intros w2 Hsame. apply cancel_ticket_absent. now rewrite Hsame.
Qed.

Lemma cancel_deletes_ticket_and_ledger_entry_witness :
  let w := world_with_ticket in
  let w' := snd (Gateway.cancel_ticket 1000%N "max" w) in
  (exists t l1 l2,
      TicketsApp.rows (tickets_db w) = (l1 ++ t :: l2)%list
      /\ t_ticket_uid t = 1000%N /\ t_username t = "max" /\ t_status t = "PAID"
      /\ TicketsApp.rows (tickets_db w') = (l1 ++ l2)%list)
  /\ match ledger_entry "max" 1000%N (bonus_db w) with
     | Some entry =>
         h_ticket_uid entry = 1000%N
         /\ exists l1 l2,
             BonusApp.history (bonus_db w) = (l1 ++ entry :: l2)%list
             /\ BonusApp.history (bonus_db w') = (l1 ++ l2)%list
     | None => bonus_db w' = bonus_db w
     end
  /\ (forall w2,
         tickets_db w2 = tickets_db w' ->
         (forall w2', Gateway.cancel_ticket 1000%N "max" w2
                      <> (Ok (Gateway.Returned tt), w2'))
         /\ (closed TicketsService.NAME w2 -> delivered w2 ->
             fst (Gateway.cancel_ticket 1000%N "max" w2)
             = Ok (Gateway.JSONResponse "Ticket does not exist" 404))).
Proof.
  intros w w'.
  assert (Htwf : tickets_wf (tickets_db w)).
  { repeat split; simpl; repeat constructor; simpl; try tauto; lia. }
  assert (Hlwf : ledger_wf (bonus_db w)).
  { repeat split; simpl; repeat constructor; simpl; try tauto; lia. }
  assert (Hrun : Gateway.cancel_ticket 1000%N "max" w = (Ok (Gateway.Returned tt), w'))
    by (vm_compute; reflexivity).
  exact (cancel_deletes_ticket_and_ledger_entry 1000%N "max" w w' Htwf Hlwf Hrun).
Defined.

(** Scenario 5 of the specification: purchase, then cancel.  The balance is
    back at its value before the purchase, the ledger is empty again, and
    the ticket lookup answers not-found. *)
Example purchase_then_cancel :
  let w0 := demo_world 100%Q 500 [] ∅ in
  let w1 := snd (Gateway.purchase_ticket (mkTicketPurchaseRequest "AFL031" 400 false)
                   "max" w0) in
  let run := Gateway.cancel_ticket 1000%N "max" w1 in
  fst run = Ok (Gateway.Returned tt)
  /\ BonusApp.accounts (bonus_db (snd run)) = BonusApp.accounts (bonus_db w0)
  /\ BonusApp.history (bonus_db (snd run)) = []
  /\ fst (TicketsService.get_ticket_by_uid 1000%N (snd run)) = Ok None
  /\ fst (Gateway.cancel_ticket 1000%N "max" (snd run))
     = Ok (Gateway.JSONResponse "Ticket does not exist" 404).
Proof. repeat split; vm_compute; reflexivity. Qed.

(** ** The tables stay well formed *)

Section Keys.
Context {A K : Type} (key : A -> K).

Lemma NoDup_map_filter (f : A -> bool) (l : list A) :
  List.NoDup (List.map key l) -> List.NoDup (List.map key (List.filter f l)).
Proof.
  induction l as [|a l IH]; intros Hnd; [exact Hnd|].
  simpl in Hnd. inversion Hnd as [|? ? Hnotin Hrest]; subst.
  simpl. destruct (f a); [|now apply IH].
  simpl. constructor; [|now apply IH].
  intros Hin. apply Hnotin.
  apply List.in_map_iff in Hin. destruct Hin as (r & Hkey & Hr).
  apply List.filter_In in Hr. destruct Hr as [Hr _].
  rewrite <- Hkey. now apply List.in_map.
Qed.
End Keys.

Lemma Forall_filter_keeps {A} (P : A -> Prop) (f : A -> bool) (l : list A) :
  Forall P l -> Forall P (List.filter f l).
Proof.
  rewrite !List.Forall_forall. intros H r Hr.
  apply List.filter_In in Hr. apply H. tauto.
Qed.

Lemma tickets_wf_empty n : tickets_wf (TicketsApp.mkDb [] n).
Proof. repeat split; simpl; constructor. Qed.

Lemma create_new_ticket_wf request db :
  tickets_wf db -> tickets_wf (snd (TicketsApp.create_new_ticket request db)).
Proof.
  intros (Hid & Huid & Hlt). unfold TicketsApp.create_new_ticket.
  destruct (TicketsApp.first_by_uid (tc_ticketUid request) db) eqn:Hfind;
    [repeat split; assumption|].
  unfold tickets_wf. cbn [snd TicketsApp.rows TicketsApp.next_id].
  rewrite !List.map_app. cbn [List.map t_id t_ticket_uid].
  split; [|split].
  - apply List.NoDup_Add with (a := TicketsApp.next_id db)
                              (l := List.map t_id (TicketsApp.rows db)).
    + rewrite <- (app_nil_r (List.map t_id (TicketsApp.rows db))) at 1.
      apply List.Add_app.
    + split; [exact Hid|].
      intros Hin. apply List.in_map_iff in Hin. destruct Hin as (r & Hkey & Hr).
      rewrite List.Forall_forall in Hlt. specialize (Hlt r Hr). lia.
  - apply List.NoDup_Add with (a := tc_ticketUid request)
                              (l := List.map t_ticket_uid (TicketsApp.rows db)).
    + rewrite <- (app_nil_r (List.map t_ticket_uid (TicketsApp.rows db))) at 1.
      apply List.Add_app.
    + split; [exact Huid|].
      intros Hin. apply List.in_map_iff in Hin. destruct Hin as (r & Hkey & Hr).
      apply (List.find_none _ _ Hfind) in Hr. apply N.eqb_neq in Hr. congruence.
  - apply List.Forall_app. split.
    + eapply List.Forall_impl; [|exact Hlt]. intros r Hr. simpl in Hr. lia.
    + constructor; [simpl; lia|constructor].
Qed.

Lemma remove_ticket_wf ticket_uid db :
  tickets_wf db -> tickets_wf (snd (TicketsApp.remove_ticket ticket_uid db)).
Proof.
  intros (Hid & Huid & Hlt). unfold TicketsApp.remove_ticket.
  destruct (TicketsApp.first_by_uid ticket_uid db); [|repeat split; assumption].
  unfold tickets_wf. cbn [snd TicketsApp.rows TicketsApp.next_id].
  split; [|split].
  - now apply NoDup_map_filter.
  - now apply NoDup_map_filter.
  - now apply Forall_filter_keeps.
Qed.

Lemma ledger_wf_empty accounts n : ledger_wf (BonusApp.mkDb accounts [] n).
Proof. split; simpl; constructor. Qed.

Lemma add_transaction_wf username request db :
  ledger_wf db -> ledger_wf (snd (BonusApp.add_transaction username request db)).
Proof.
  intros (Hid & Hlt). unfold BonusApp.add_transaction.
  destruct (BonusApp.account_by_username username db); [|split; assumption].
  destruct (parse_OperationType (at_operation_type request)); [|split; assumption].
  unfold ledger_wf. cbn [snd BonusApp.history BonusApp.next_id].
  rewrite List.map_app. cbn [List.map h_id].
  split.
  - apply List.NoDup_Add with (a := BonusApp.next_id db)
                              (l := List.map h_id (BonusApp.history db)).
    + rewrite <- (app_nil_r (List.map h_id (BonusApp.history db))) at 1.
      apply List.Add_app.
    + split; [exact Hid|].
      intros Hin. apply List.in_map_iff in Hin. destruct Hin as (r & Hkey & Hr).
      rewrite List.Forall_forall in Hlt. specialize (Hlt r Hr). lia.
  - apply List.Forall_app. split.
    + eapply List.Forall_impl; [|exact Hlt]. intros r Hr. simpl in Hr. lia.
    + constructor; [simpl; lia|constructor].
Qed.

Lemma remove_transaction_wf username ticket_uid db :
  ledger_wf db -> ledger_wf (snd (BonusApp.remove_transaction username ticket_uid db)).
Proof.
  intros (Hid & Hlt). unfold BonusApp.remove_transaction.
  destruct (BonusApp.account_by_username username db) as [account|]; [|split; assumption].
  destruct (BonusApp.entry_of account ticket_uid db); [|split; assumption].
  unfold ledger_wf. cbn [snd BonusApp.history BonusApp.next_id].
  split; [now apply NoDup_map_filter|now apply Forall_filter_keeps].
Qed.

(** * Further properties of the code *)

(** ** The tickets store ([tickets/main.py]) *)

Lemma find_app_none {A} (f : A -> bool) (l1 l2 : list A) :
  List.find f l1 = None -> List.find f (l1 ++ l2) = List.find f l2.
Proof.
  induction l1 as [|a l IH]; [reflexivity|].
  simpl. destruct (f a); [discriminate|exact IH].
Qed.

Lemma find_app_some {A} (f : A -> bool) (l1 l2 : list A) x :
  List.find f l1 = Some x -> List.find f (l1 ++ l2) = Some x.
Proof.
  induction l1 as [|a l IH]; [discriminate|].
  simpl. destruct (f a); [trivial|exact IH].
Qed.

Lemma find_skip_middle {A} (f : A -> bool) (l1 l2 : list A) x :
  f x = false -> List.find f (l1 ++ x :: l2) = List.find f (l1 ++ l2).
Proof.
  intros Hx. induction l1 as [|a l IH]; simpl.
  - now rewrite Hx.
  - destruct (f a); [reflexivity|exact IH].
Qed.



(** X2. Writes to one identifier leave the others alone: whatever a create
    for [ticket_uid] does, and whatever a delete of [ticket_uid] does on a
    well-formed table, the lookup of any other identifier answers as
    before. *)
Theorem writes_keep_other_tickets (other : UUID) (db : TicketsApp.Db) :
  (forall request,
      tc_ticketUid request <> other ->
      TicketsApp.first_by_uid other (snd (TicketsApp.create_new_ticket request db))
      = TicketsApp.first_by_uid other db)
  /\ (forall ticket_uid,
         tickets_wf db ->
         ticket_uid <> other ->
         TicketsApp.first_by_uid other (snd (TicketsApp.remove_ticket ticket_uid db))
         = TicketsApp.first_by_uid other db).
Proof.
  split.
  - intros request Hne. unfold TicketsApp.create_new_ticket.
    destruct (TicketsApp.first_by_uid (tc_ticketUid request) db); [reflexivity|].
    unfold TicketsApp.first_by_uid. cbn [snd TicketsApp.rows].
    destruct (List.find (fun r => N.eqb (t_ticket_uid r) other) (TicketsApp.rows db))
      as [t|] eqn:Hfind.
    + now apply find_app_some.
    + rewrite (find_app_none _ _ _ Hfind). cbn [List.find t_ticket_uid].
      apply N.eqb_neq in Hne. now rewrite Hne.
  - intros ticket_uid Hwf Hne.
    destruct (TicketsApp.remove_ticket ticket_uid db) as [[code []|code detail] db'] eqn:Hrm.
    + assert (code = 204).
      { unfold TicketsApp.remove_ticket in Hrm.
        destruct (TicketsApp.first_by_uid ticket_uid db); now inversion Hrm. }
      subst code.
      destruct (remove_ticket_table _ _ _ Hwf Hrm)
        as (t & l1 & l2 & _ & Huid & Hrows & Hrows' & _).
      unfold TicketsApp.first_by_uid. cbn [snd]. rewrite Hrows, Hrows'.
      symmetry. apply find_skip_middle. apply N.eqb_neq. congruence.
    + unfold TicketsApp.remove_ticket in Hrm.
      destruct (TicketsApp.first_by_uid ticket_uid db); inversion Hrm; reflexivity.
Qed.

Lemma writes_keep_other_tickets_witness :
  let db := TicketsApp.mkDb [mkTicket 1 77%N "user1" "FL100" 1500 "PAID";
                             mkTicket 2 78%N "user2" "FL200" 2000 "PAID"] 3 in
  TicketsApp.first_by_uid 78%N
    (snd (TicketsApp.create_new_ticket (mkTicketCreateRequest 79%N "u" "F" 1) db))
  = TicketsApp.first_by_uid 78%N db
  /\ TicketsApp.first_by_uid 78%N (snd (TicketsApp.remove_ticket 77%N db))
     = TicketsApp.first_by_uid 78%N db.
Proof.
  intros db. split.
  - apply (proj1 (writes_keep_other_tickets 78%N db)). discriminate.
  - apply (proj2 (writes_keep_other_tickets 78%N db)).
    + repeat split; simpl; repeat constructor; simpl; try tauto; try lia;
        intuition discriminate.
    + discriminate.
Defined.

(** X3. Delete, then look up.  On a well-formed table: deleting an
    identifier the table does not hold answers 404 and changes nothing;
    deleting one it holds answers 204 and removes one row, after which both
    the lookup and a second delete of that identifier answer 404. *)
Theorem remove_then_lookup (ticket_uid : UUID) (db : TicketsApp.Db) :
  tickets_wf db ->
  (TicketsApp.first_by_uid ticket_uid db = None ->
   TicketsApp.remove_ticket ticket_uid db = (HTTPException 404 "Ticket not found", db))
  /\ (forall t,
         TicketsApp.first_by_uid ticket_uid db = Some t ->
         let db' := snd (TicketsApp.remove_ticket ticket_uid db) in
         fst (TicketsApp.remove_ticket ticket_uid db) = Success 204 tt
         /\ S (length (TicketsApp.rows db')) = length (TicketsApp.rows db)
         /\ TicketsApp.get_ticket_details ticket_uid db'
            = (HTTPException 404 "Ticket not found", db')
         /\ TicketsApp.remove_ticket ticket_uid db'
            = (HTTPException 404 "Ticket not found", db')).
Proof.
  intros Hwf. split.
  - intros Hnone. unfold TicketsApp.remove_ticket. now rewrite Hnone.
  - intros t Hfind db'.
    assert (Hrm : TicketsApp.remove_ticket ticket_uid db = (Success 204 tt, db')).
    { subst db'. unfold TicketsApp.remove_ticket. now rewrite Hfind. }
    destruct (remove_ticket_table _ _ _ Hwf Hrm)
      as (t' & l1 & l2 & _ & _ & Hrows & Hrows' & Hgone).
    split; [now rewrite Hrm|]. split.
    + rewrite Hrows, Hrows', !List.length_app. simpl. lia.
    + unfold TicketsApp.get_ticket_details, TicketsApp.remove_ticket.
      now rewrite Hgone.
Qed.

Lemma remove_then_lookup_witness :
  let db := TicketsApp.mkDb [mkTicket 1 77%N "user1" "FL100" 1500 "PAID"] 2 in
  let db' := snd (TicketsApp.remove_ticket 77%N db) in
  TicketsApp.remove_ticket 78%N db = (HTTPException 404 "Ticket not found", db)
  /\ fst (TicketsApp.remove_ticket 77%N db) = Success 204 tt
  /\ S (length (TicketsApp.rows db')) = length (TicketsApp.rows db)
  /\ TicketsApp.get_ticket_details 77%N db' = (HTTPException 404 "Ticket not found", db')
  /\ TicketsApp.remove_ticket 77%N db' = (HTTPException 404 "Ticket not found", db').
Proof.
  intros db db'.
  assert (Hwf : tickets_wf db).
  { repeat split; simpl; repeat constructor; simpl; try tauto; lia. }
  split.
  - apply (proj1 (remove_then_lookup 78%N db Hwf)). reflexivity.
  - apply (proj2 (remove_then_lookup 77%N db Hwf)
             (mkTicket 1 77%N "user1" "FL100" 1500 "PAID")).
    reflexivity.
Defined.



Lemma create_new_ticket_all_paid request db :
  all_paid db -> all_paid (snd (TicketsApp.create_new_ticket request db)).
Proof.
  unfold all_paid, TicketsApp.create_new_ticket. intros H.
  destruct (TicketsApp.first_by_uid (tc_ticketUid request) db); [exact H|].
  cbn [snd TicketsApp.rows]. apply List.Forall_app. split; [exact H|].
  constructor; [reflexivity|constructor].
Qed.

Lemma remove_ticket_all_paid ticket_uid db :
  all_paid db -> all_paid (snd (TicketsApp.remove_ticket ticket_uid db)).
Proof.
  unfold all_paid, TicketsApp.remove_ticket. intros H.
  destruct (TicketsApp.first_by_uid ticket_uid db); [|exact H].
  cbn [snd TicketsApp.rows]. now apply Forall_filter_keeps.
Qed.

Lemma tickets_reachable_invariants db :
  tickets_reachable db -> tickets_wf db /\ all_paid db.
Proof.
  induction 1 as [n|request db _ [IHwf IHpaid]|ticket_uid db _ [IHwf IHpaid]].
  - split; [apply tickets_wf_empty|constructor].
  - split; [now apply create_new_ticket_wf|now apply create_new_ticket_all_paid].
  - split; [now apply remove_ticket_wf|now apply remove_ticket_all_paid].
Qed.

(** X5. Invariants of the tickets table.  Every table built from an empty
    one by the create and delete handlers has pairwise distinct primary
    keys, all below the key counter, at most one row per ticket identifier,
    and only rows of status PAID: no handler ever stores another status. *)
Theorem tickets_table_invariants (db : TicketsApp.Db) :
  tickets_reachable db ->
  List.NoDup (List.map t_id (TicketsApp.rows db))
  /\ List.NoDup (List.map t_ticket_uid (TicketsApp.rows db))
  /\ (forall r, In r (TicketsApp.rows db) -> t_id r < TicketsApp.next_id db)
  /\ (forall r, In r (TicketsApp.rows db) -> t_status r = "PAID").
Proof.
  intros Hreach.
  destruct (tickets_reachable_invariants db Hreach) as [(Hid & Huid & Hlt) Hpaid].
  unfold all_paid in Hpaid. rewrite List.Forall_forall in Hlt, Hpaid.
  auto.
Qed.

Lemma tickets_table_invariants_witness :
  let db := snd (TicketsApp.create_new_ticket
                   (mkTicketCreateRequest 78%N "user2" "AB456" 3000)
                   (snd (TicketsApp.create_new_ticket
                           (mkTicketCreateRequest 77%N "user1" "FL100" 1500)
                           (TicketsApp.mkDb [] 1)))) in
  List.NoDup (List.map t_id (TicketsApp.rows db))
  /\ List.NoDup (List.map t_ticket_uid (TicketsApp.rows db))
  /\ (forall r, In r (TicketsApp.rows db) -> t_id r < TicketsApp.next_id db)
  /\ (forall r, In r (TicketsApp.rows db) -> t_status r = "PAID").
Proof.
  intros db. apply (tickets_table_invariants db).
  subst db. apply reach_create. apply reach_create. apply reach_empty.
Defined.

(** ** The flights catalog ([flights/main.py]) *)

Lemma all_responses_fields db l rs :
  FlightsApp.all_responses db l = Some rs ->
  List.map fr_flightNumber rs = List.map f_flight_number l
  /\ List.map fr_price rs = List.map f_price l
  /\ length rs = length l.
Proof.
  revert rs. induction l as [|x l IH]; intros rs H; simpl in H.
  - inversion H. auto.
  - destruct (FlightsApp.flight_to_response db x) as [y|] eqn:Hy; [|discriminate].
    destruct (FlightsApp.all_responses db l) as [ys|]; [|discriminate].
    inversion H; subst rs; clear H.
    destruct (IH ys eq_refl) as (IH1 & IH2 & IH3).
    unfold FlightsApp.flight_to_response in Hy.
    destruct (FlightsApp.airport_by_id _ db); [|discriminate].
    destruct (FlightsApp.airport_by_id _ db); [|discriminate].
    inversion Hy; subst y; clear Hy. simpl.
    now rewrite IH1, IH2, IH3.
Qed.

Lemma all_responses_firstn db l rs k :
  FlightsApp.all_responses db l = Some rs ->
  FlightsApp.all_responses db (firstn k l) = Some (firstn k rs).
Proof.
  revert rs k. induction l as [|x l IH]; intros rs k H; simpl in H.
  - inversion H. now rewrite !List.firstn_nil.
  - destruct (FlightsApp.flight_to_response db x) as [y|] eqn:Hy; [|discriminate].
    destruct (FlightsApp.all_responses db l) as [ys|]; [|discriminate].
    inversion H; subst rs; clear H.
    destruct k as [|k]; [reflexivity|].
    simpl. rewrite Hy. now rewrite (IH ys k eq_refl).
Qed.

Lemma all_responses_skipn db l rs k :
  FlightsApp.all_responses db l = Some rs ->
  FlightsApp.all_responses db (skipn k l) = Some (skipn k rs).
Proof.
  revert rs k. induction l as [|x l IH]; intros rs k H.
  - simpl in H. inversion H. now rewrite !List.skipn_nil.
  - destruct k as [|k]; [exact H|].
    simpl in H.
    destruct (FlightsApp.flight_to_response db x) as [y|]; [|discriminate].
    destruct (FlightsApp.all_responses db l) as [ys|]; [|discriminate].
    inversion H; subst rs; clear H.
    simpl. now apply IH.
Qed.

(** What a successful listing holds. *)
Lemma get_all_flights_success page size db code resp :
  fst (FlightsApp.get_all_flights page size db) = Success code resp ->
  let p := default 1 page in
  code = 200 /\ 1 <= p
  /\ exists items,
      resp = mkPaginationResponse p 10 (Z.of_nat (length (FlightsApp.flights db))) items
      /\ FlightsApp.all_responses db
           (firstn 10 (skipn (Z.to_nat ((p - 1) * 10)) (FlightsApp.flights db)))
         = Some items.
Proof.
  unfold FlightsApp.get_all_flights. cbv zeta. intros H.
  destruct (default 1 page <? 1) eqn:Hp; [discriminate|].
  apply Z.ltb_ge in Hp.
  change (Z.to_nat 10) with 10%nat in H.
  destruct (FlightsApp.all_responses db _) as [items|] eqn:Hitems; [|discriminate].
  simpl in H. inversion H; subst. eauto.
Qed.

Lemma get_all_flights_pure page size db :
  snd (FlightsApp.get_all_flights page size db) = db.
Proof.
  unfold FlightsApp.get_all_flights. cbv zeta.
  destruct (default 1 page <? 1); [reflexivity|].
  now destruct (FlightsApp.all_responses db _).
Qed.

Lemma get_all_flights_spec page size w r w' :
  FlightsService.get_all_flights page size w = (r, w') ->
  same_data w w'
  /\ forall x, r = Ok x ->
       exists code,
         fst (FlightsApp.get_all_flights page size (flights_db w)) = Success code x.
Proof.
  intros H. unfold FlightsService.get_all_flights,
    FlightsService.get_all_flights_fn, same_data, same_env in *.
  io_unfold.
  pose proof (get_all_flights_pure page size (flights_db w)) as Hpure.
  destruct (FlightsApp.get_all_flights page size (flights_db w)) as [h db] eqn:Hh.
  cbn [snd] in Hpure. subst db.
  io_cases; repeat split; intros; simplify_eq; eauto; try congruence.
Qed.

(** X6. GET /flights, when it answers: the page number is the requested
    one (1 when none is given) and is at least 1; the page size is 10
    whatever [size] the caller asked for; the total is the size of the
    catalog; the items are the flights at catalog positions
    10*(page-1) .. 10*page-1, in order, with their numbers and prices; and
    no table, clock or identifier source was touched. *)
Theorem retrieve_flights_page
    (page size : option Z) (w : World) (resp : PaginationResponse) (w' : World) :
  Gateway.retrieve_flights page size w = (Ok resp, w') ->
  let p := default 1 page in
  let catalog := FlightsApp.flights (flights_db w) in
  let slice := firstn 10 (skipn (Z.to_nat (10 * (p - 1))) catalog) in
  1 <= p
  /\ pg_page resp = p
  /\ pg_pageSize resp = 10
  /\ pg_totalElements resp = Z.of_nat (length catalog)
  /\ List.map fr_flightNumber (pg_items resp) = List.map f_flight_number slice
  /\ List.map fr_price (pg_items resp) = List.map f_price slice
  /\ (length (pg_items resp) <= 10)%nat
  /\ same_data w w'.
Proof.
  unfold Gateway.retrieve_flights. intros H. cbv zeta.
  apply get_all_flights_spec in H. destruct H as [Hsame Hok].
  destruct (Hok resp eq_refl) as [code Hcode].
  apply get_all_flights_success in Hcode. cbv zeta in Hcode.
  destruct Hcode as (_ & Hp & items & -> & Hitems).
  rewrite (Z.mul_comm 10). cbn [pg_page pg_pageSize pg_totalElements pg_items].
  destruct (all_responses_fields _ _ _ Hitems) as (Hnum & Hprice & Hlen).
  unfold same_data, same_env in *.
  repeat split; auto; try tauto.
  rewrite Hlen. apply List.firstn_le_length.
Qed.

Lemma retrieve_flights_page_witness :
  let w := with_flights_db twelve_flights (demo_world 100%Q 500 [] ∅) in
  let run := Gateway.retrieve_flights (Some 2) (Some 50) w in
  exists resp,
    fst run = Ok resp
    /\ pg_page resp = 2 /\ pg_pageSize resp = 10 /\ pg_totalElements resp = 12
    /\ List.map fr_price (pg_items resp) = [111; 112]
    /\ same_data w (snd run).
Proof.
  intros w run.
  assert (Hrun : exists resp, run = (Ok resp, snd run)).
  { eexists. vm_compute. reflexivity. }
  destruct Hrun as [resp Hrun].
  exists resp. split; [now rewrite Hrun|].
  destruct (retrieve_flights_page (Some 2) (Some 50) w resp (snd run) Hrun)
    as (_ & Hpage & Hsize & Htotal & _ & Hprice & _ & Hsame).
  repeat split; try assumption; apply Hsame.
Defined.

Lemma firstn_then_next {A} (a b : nat) (l : list A) :
  (firstn a l ++ firstn b (skipn a l))%list = firstn (a + b) l.
Proof.
  revert l. induction a as [|a IH]; intros l; [reflexivity|].
  destruct l as [|x l]; simpl.
  - now rewrite List.firstn_nil.
  - now rewrite IH.
Qed.

(** The items of a page, when every flight of the catalog has its two
    airports. *)
Lemma page_items_slice db rs page :
  FlightsApp.all_responses db (FlightsApp.flights db) = Some rs ->
  1 <= page ->
  page_items db page = firstn 10 (skipn (Z.to_nat ((page - 1) * 10)) rs).
Proof.
  intros Hall Hpage. unfold page_items, FlightsApp.get_all_flights. cbv zeta.
  change (default 1 (Some page)) with page.
  apply Z.ltb_ge in Hpage. rewrite Hpage.
  change (Z.to_nat 10) with 10%nat.
  rewrite (all_responses_firstn _ _ _ 10
             (all_responses_skipn _ _ _ (Z.to_nat ((page - 1) * 10)) Hall)).
  reflexivity.
Qed.

(** X7. The pages of GET /flights partition the catalog.  When every
    flight of the catalog converts to a response ([rs], in catalog order),
    page [p >= 1] holds exactly the responses at positions 10*(p-1) ..
    10*p-1, the pages 1..n laid end to end are the first 10*n responses with
    nothing skipped or repeated, and a page past the end is empty. *)
Theorem pages_partition_catalog (db : FlightsApp.Db) (rs : list FlightResponse) :
  FlightsApp.all_responses db (FlightsApp.flights db) = Some rs ->
  (forall page, 1 <= page ->
     page_items db page = firstn 10 (skipn (Z.to_nat (10 * (page - 1))) rs))
  /\ (forall n : nat,
        concat (List.map (fun i => page_items db (Z.of_nat (S i))) (seq 0 n))
        = firstn (10 * n) rs)
  /\ (forall page, Z.of_nat (length rs) <= 10 * (page - 1) -> 1 <= page ->
      page_items db page = []).
Proof.
  intros Hall.
  assert (Hslice : forall page, 1 <= page ->
            page_items db page = firstn 10 (skipn (Z.to_nat (10 * (page - 1))) rs)).
  { intros page Hpage. rewrite (Z.mul_comm 10). now apply page_items_slice. }
  split; [exact Hslice|]. split.
  - induction n as [|n IH]; [reflexivity|].
    rewrite List.seq_S, List.map_app, List.concat_app, IH. simpl.
    rewrite app_nil_r, Hslice by lia.
    replace (Z.to_nat (10 * (Z.of_nat (S n) - 1))) with (10 * n)%nat by lia.
    rewrite firstn_then_next. f_equal. lia.
  - intros page Hpast Hpage. rewrite Hslice by exact Hpage.
    rewrite List.skipn_all2 by lia. apply List.firstn_nil.
Qed.

Lemma pages_partition_catalog_witness :
  exists rs,
    FlightsApp.all_responses twelve_flights (FlightsApp.flights twelve_flights) = Some rs
    /\ List.map fr_price (page_items twelve_flights 1)
       = [101; 102; 103; 104; 105; 106; 107; 108; 109; 110]
    /\ (page_items twelve_flights 1 ++ page_items twelve_flights 2)%list = rs
    /\ page_items twelve_flights 3 = [].
Proof.
  destruct (FlightsApp.all_responses twelve_flights (FlightsApp.flights twelve_flights))
    as [rs|] eqn:Hall; [|vm_compute in Hall; discriminate].
  exists rs. split; [reflexivity|].
  destruct (pages_partition_catalog twelve_flights rs Hall) as (Hslice & Hcover & Hpast).
  assert (Hrs : rs = firstn 20 rs).
  { symmetry. apply List.firstn_all2. vm_compute in Hall. inversion Hall. simpl. lia. }
  split; [|split].
  - rewrite Hslice by lia. vm_compute in Hall. inversion Hall. reflexivity.
  - transitivity (firstn (10 * 2) rs); [|exact (eq_sym Hrs)].
    pose proof (Hcover 2%nat) as H2. cbn [seq List.map concat] in H2.
    rewrite app_nil_r in H2. exact H2.
  - apply Hpast; [|lia]. vm_compute in Hall. inversion Hall. simpl. lia.
Defined.

(** X8. GET /flights rejects a page below 1: the flights service answers
    422 and leaves the catalog alone, and the gateway's handler ends with
    HTTPError(422) when the request reaches the service. *)
Theorem flights_page_below_one (page : Z) (size : option Z) (w : World) :
  page < 1 ->
  closed FlightsService.NAME w ->
  delivered w ->
  (exists detail,
      FlightsApp.get_all_flights (Some page) size (flights_db w)
      = (HTTPException 422 detail, flights_db w))
  /\ fst (Gateway.retrieve_flights (Some page) size w) = Raise (HTTPError 422).
Proof.
  intros Hpage Hclosed Hdelivered. apply Z.ltb_lt in Hpage.
  assert (Hh : FlightsApp.get_all_flights (Some page) size (flights_db w)
               = (HTTPException 422 "page", flights_db w)).
  { unfold FlightsApp.get_all_flights. cbv zeta.
    change (default 1 (Some page)) with page. now rewrite Hpage. }
  split; [eexists; exact Hh|].
  unfold closed, delivered, Gateway.retrieve_flights, FlightsService.get_all_flights,
    FlightsService.get_all_flights_fn in *.
  io_unfold. unfold allow_call. rewrite Hclosed. simpl. rewrite Hh.
  destruct (faults w) as [|[] rest]; simpl in *; try discriminate; reflexivity.
Qed.

Lemma flights_page_below_one_witness :
  let w := demo_world 100%Q 500 [] ∅ in
  (exists detail,
      FlightsApp.get_all_flights (Some 0) (Some 5) (flights_db w)
      = (HTTPException 422 detail, flights_db w))
  /\ fst (Gateway.retrieve_flights (Some 0) (Some 5) w) = Raise (HTTPError 422).
Proof.
  intros w.
  apply (flights_page_below_one 0 (Some 5) w);
    [lia | vm_compute; reflexivity | reflexivity].
Defined.

(** X9. Lookup of a flight by number in the catalog: the handler never
    changes the catalog; it answers 404 "Flight not found" exactly when no
    flight carries the number; and a successful answer is 200, carries the
    requested number, and the price and date of a catalog flight of that
    number. *)
Theorem flight_lookup_answers (flight_number : string) (db : FlightsApp.Db) :
  snd (FlightsApp.get_flight_by_number flight_number db) = db
  /\ (fst (FlightsApp.get_flight_by_number flight_number db)
      = HTTPException 404 "Flight not found"
      <-> forall f, In f (FlightsApp.flights db) -> f_flight_number f <> flight_number)
  /\ (forall code r,
         fst (FlightsApp.get_flight_by_number flight_number db) = Success code r ->
         code = 200 /\ fr_flightNumber r = flight_number
         /\ exists f, In f (FlightsApp.flights db)
                      /\ f_flight_number f = flight_number
                      /\ fr_price r = f_price f /\ fr_date r = f_datetime f).
Proof.
  unfold FlightsApp.get_flight_by_number.
  destruct (List.find _ (FlightsApp.flights db)) as [f|] eqn:Hfind.
  - apply List.find_some in Hfind. destruct Hfind as [Hin Hnum].
    apply String.eqb_eq in Hnum.
    unfold FlightsApp.flight_to_response.
    destruct (FlightsApp.airport_by_id (f_from_airport_id f) db) as [dep|];
      [destruct (FlightsApp.airport_by_id (f_to_airport_id f) db) as [arr|]|];
      cbn [fst snd].
    + split; [reflexivity|]. split.
      * split; [discriminate|]. intros Hnone. exfalso. exact (Hnone f Hin Hnum).
      * intros code r Hr. inversion Hr; subst. cbn. eauto 10.
    + split; [reflexivity|]. split.
      * split; [discriminate|]. intros Hnone. exfalso. exact (Hnone f Hin Hnum).
      * discriminate.
    + split; [reflexivity|]. split.
      * split; [discriminate|]. intros Hnone. exfalso. exact (Hnone f Hin Hnum).
      * discriminate.
  - cbn [fst snd]. split; [reflexivity|]. split.
    + split; [|reflexivity]. intros _ f Hin Hnum.
      apply (List.find_none _ _ Hfind) in Hin.
      apply String.eqb_neq in Hin. contradiction.
    + discriminate.
Qed.

Lemma flight_lookup_answers_witness :
  fst (FlightsApp.get_flight_by_number "NOPE" demo_flights)
  = HTTPException 404 "Flight not found"
  /\ (200 = 200 /\ "AFL031" = "AFL031"
      /\ exists f, In f (FlightsApp.flights demo_flights)
                   /\ f_flight_number f = "AFL031"
                   /\ 400 = f_price f /\ 50%Q = f_datetime f).
Proof.
  split.
  - apply (proj1 (proj2 (flight_lookup_answers "NOPE" demo_flights))).
    intros f [<-|[]]. discriminate.
  - exact (proj2 (proj2 (flight_lookup_answers "AFL031" demo_flights)) 200
             (mkFlightResponse "AFL031" "Saint Petersburg Pulkovo" "Moscow Sheremetyevo"
                50%Q 400) eq_refl).
Defined.

(** ** The service clients ([services.py]) *)

(** X10. [get_flight_by_number_or_default] never lets a
    CircuitOpenException out; while the flights breaker is open and cooling
    down it returns the placeholder flight ("XXX", price 0) without sending
    a request; and whenever the guarded lookup returns a flight it returns
    the same flight and leaves the same world. *)
Theorem flight_or_default_absorbs_open_circuit (flight_number : string) (w : World) :
  (forall s, fst (FlightsService.get_flight_by_number_or_default flight_number w)
             <> Raise (CircuitOpenException s))
  /\ (forall cb,
         breakers w !! FlightsService.NAME = Some cb ->
         cooling_down (clock w) cb ->
         FlightsService.get_flight_by_number_or_default flight_number w
         = (Ok default_flight, w))
  /\ (forall r w',
         FlightsService.get_flight_by_number flight_number w = (Ok r, w') ->
         FlightsService.get_flight_by_number_or_default flight_number w = (Ok r, w')).
Proof.
  unfold FlightsService.get_flight_by_number_or_default, try_except_circuit_open.
  split; [|split].
  - intros s.
    destruct (FlightsService.get_flight_by_number flight_number w) as [[r|e] w1];
      [discriminate|].
    destruct e; cbn; congruence.
  - intros cb Hcb Hcool. unfold FlightsService.get_flight_by_number.
    now rewrite (wrap_cb_rejected _ _ _ _ Hcb Hcool).
  - intros r w' Hrun. now rewrite Hrun.
Qed.

Lemma flight_or_default_absorbs_open_circuit_witness :
  let w := demo_world (201 # 2) 500 []
             {["Flights Service" := opened_at_100 "Flights Service"]} in
  FlightsService.get_flight_by_number_or_default "AFL031" w = (Ok default_flight, w)
  /\ fst (FlightsService.get_flight_by_number_or_default "AFL031"
            (demo_world 100%Q 500 [] ∅))
     = Ok (mkFlightResponse "AFL031" "Saint Petersburg Pulkovo" "Moscow Sheremetyevo"
             50%Q 400).
Proof.
  intros w. split.
  - apply (proj1 (proj2 (flight_or_default_absorbs_open_circuit "AFL031" w))
             (opened_at_100 "Flights Service")).
    + reflexivity.
    + split; reflexivity.
  - assert (Hrun : exists w', FlightsService.get_flight_by_number "AFL031"
                                (demo_world 100%Q 500 [] ∅)
                              = (Ok (mkFlightResponse "AFL031" "Saint Petersburg Pulkovo"
                                       "Moscow Sheremetyevo" 50%Q 400), w')).
    { eexists. vm_compute. reflexivity. }
    destruct Hrun as [w' Hrun].
    now rewrite (proj2 (proj2 (flight_or_default_absorbs_open_circuit "AFL031"
                                 (demo_world 100%Q 500 [] ∅))) _ _ Hrun).
Defined.

Lemma get_user_tickets_spec username w r w' :
  TicketsService.get_user_tickets username w = (r, w') ->
  same_data w w'
  /\ exists l, sent w w' l
       /\ (l = [] \/ l = [GET_tickets_user username])
       /\ forall x, r = Ok x ->
            l = [GET_tickets_user username]
            /\ x = List.filter (fun t => String.eqb (t_username t) username)
                     (TicketsApp.rows (tickets_db w)).
Proof. read_spec. Qed.

(** X11. The reads of the flights and tickets clients (list flights, flight
    by number, tickets of a user, ticket by identifier) never change a
    table, the clock or the identifier source, whatever they return, and
    they put at most one request on the wire. *)
Theorem store_reads_change_nothing
    {A : Type} (service : string) (fn op : M A) (w : World) :
  ReadOperation service fn op ->
  service <> PrivilegesService.NAME ->
  same_data w (snd (op w))
  /\ exists l, sent w (snd (op w)) l /\ (length l <= 1)%nat.
Proof.
  intros Hop Hservice.
  destruct Hop as [page size|flight_number|username|ticket_uid| | | ];
    try (exfalso; apply Hservice; reflexivity).
  - destruct (FlightsService.get_all_flights page size w) as [r w'] eqn:Hrun.
    cbn [snd]. split; [exact (proj1 (get_all_flights_spec _ _ _ _ _ Hrun))|].
    revert Hrun.
    unfold FlightsService.get_all_flights, FlightsService.get_all_flights_fn, sent.
    io_unfold.
    destruct (FlightsApp.get_all_flights page size (flights_db w)) as [h db].
    intros Hrun. io_cases;
      solve [ exists []; rewrite app_nil_r; split; [reflexivity|simpl; lia]
            | eexists [_]; split; [reflexivity|simpl; lia] ].
  - destruct (FlightsService.get_flight_by_number flight_number w) as [r w'] eqn:Hrun.
    apply get_flight_by_number_spec in Hrun.
    destruct Hrun as (Hsame & l & Hsent & [-> | ->] & _); cbn [snd];
      (split; [exact Hsame|]); eexists; (split; [exact Hsent|]); simpl; lia.
  - destruct (TicketsService.get_user_tickets username w) as [r w'] eqn:Hrun.
    apply get_user_tickets_spec in Hrun.
    destruct Hrun as (Hsame & l & Hsent & [-> | ->] & _); cbn [snd];
      (split; [exact Hsame|]); eexists; (split; [exact Hsent|]); simpl; lia.
  - destruct (TicketsService.get_ticket_by_uid ticket_uid w) as [r w'] eqn:Hrun.
    apply get_ticket_by_uid_spec in Hrun.
    destruct Hrun as (Hsame & l & Hsent & [-> | ->] & _); cbn [snd];
      (split; [exact Hsame|]); eexists; (split; [exact Hsent|]); simpl; lia.
Qed.

Lemma store_reads_change_nothing_witness :
  let w := world_with_ticket in
  same_data w (snd (TicketsService.get_ticket_by_uid 1000%N w))
  /\ exists l, sent w (snd (TicketsService.get_ticket_by_uid 1000%N w)) l
               /\ (length l <= 1)%nat.
Proof.
  intros w.
  apply (store_reads_change_nothing TicketsService.NAME
           (TicketsService.get_ticket_by_uid_fn 1000%N)
           (TicketsService.get_ticket_by_uid 1000%N) w
           (read_get_ticket_by_uid 1000%N)).
  discriminate.
Defined.

(** ** The gateway ([gateway/main.py]) *)

Lemma same_data_env w w' : same_data w w' -> same_env w w'.
Proof. now intros [H _]. Qed.

Lemma same_data_refl w : same_data w w.
Proof. repeat split. Qed.

(** Every run of the cancel saga: either it stops at the ticket lookup or
    at one of the three checks, having written nothing, or the ticket is a
    PAID ticket of the caller and the requests sent are a prefix of the full
    sequence. *)
Lemma cancel_ticket_runs ticket_uid user w r w' :
  Gateway.cancel_ticket ticket_uid user w = (r, w') ->
  same_env w w'
  /\ exists l, sent w w' l
     /\ (((l = [] \/ l = [GET_ticket ticket_uid])
          /\ same_data w w'
          /\ forall x, r = Ok x ->
               (TicketsApp.first_by_uid ticket_uid (tickets_db w) = None
                /\ x = Gateway.JSONResponse "Ticket does not exist" 404)
               \/ exists t,
                   TicketsApp.first_by_uid ticket_uid (tickets_db w) = Some t
                   /\ ((t_username t <> user
                        /\ x = Gateway.JSONResponse "Ticket does not belong to user" 403)
                       \/ (t_username t = user /\ t_status t <> "PAID"
                           /\ x = Gateway.JSONResponse "Ticket cannot be cancelled" 400)))
         \/ (exists t,
                TicketsApp.first_by_uid ticket_uid (tickets_db w) = Some t
                /\ t_username t = user /\ t_status t = "PAID"
                /\ (exists rest revert,
                       (l ++ rest)%list = cancel_requests user ticket_uid revert)
                /\ ((tickets_db w' = tickets_db w /\ exists e, r = Raise e)
                    \/ (TicketsApp.remove_ticket ticket_uid (tickets_db w)
                        = (Success 204 tt, tickets_db w')
                        /\ r = Ok (Gateway.Returned tt))))).
Proof.
  unfold Gateway.cancel_ticket, Gateway.create_error_response. intros H.
  (* the ticket lookup *)
  apply bind_inv in H as [(found & w1 & H1 & H)|(e & H1 & ->)];
    apply get_ticket_by_uid_spec in H1;
    destruct H1 as (Hd1 & l1 & Hs1 & Hl1 & Hok1).
  2:{ split; [now apply same_data_env|]. exists l1. split; [exact Hs1|].
      left. split; [exact Hl1|]. split; [exact Hd1|]. discriminate. }
  destruct (Hok1 found eq_refl) as [-> ->]. clear Hok1 Hl1.
  destruct (TicketsApp.first_by_uid ticket_uid (tickets_db w)) as [t|] eqn:Hfind.
  2:{ ret_inv H. split; [now apply same_data_env|]. eexists. split; [exact Hs1|].
      left. split; [auto|]. split; [exact Hd1|].
      intros x Hx. inversion Hx. auto. }
  destruct (String.eqb (t_username t) user) eqn:Huser; cbn [negb] in H.
  2:{ ret_inv H. apply String.eqb_neq in Huser.
      split; [now apply same_data_env|]. eexists. split; [exact Hs1|].
      left. split; [auto|]. split; [exact Hd1|].
      intros x Hx. inversion Hx. right. exists t. auto. }
  apply String.eqb_eq in Huser.
  destruct (String.eqb (t_status t) "PAID") eqn:Hpaid; cbn [negb] in H.
  2:{ ret_inv H. apply String.eqb_neq in Hpaid.
      split; [now apply same_data_env|]. eexists. split; [exact Hs1|].
      left. split; [auto|]. split; [exact Hd1|].
      intros x Hx. inversion Hx. right. exists t. auto. }
  apply String.eqb_eq in Hpaid.
  destruct Hd1 as (He1 & Htk1 & Hbn1).
  (* the ledger lookup *)
  apply bind_inv in H as [(entry & w2 & H2 & H)|(e & H2 & ->)];
    apply get_user_privilege_transaction_spec in H2;
    destruct H2 as ((He2 & Htk2 & Hbn2) & l2 & Hs2 & Hl2 & Hok2);
    pose proof (same_env_trans _ _ _ He1 He2) as He12;
    pose proof (sent_app _ _ _ _ _ Hs1 Hs2) as Hs12.
  2:{ split; [exact He12|]. eexists. split; [exact Hs12|].
      right. exists t. repeat split; auto.
      - destruct Hl2 as [-> | ->];
          [exists [GET_privilege_history_entry user ticket_uid; DELETE_ticket ticket_uid]
          |exists [DELETE_ticket ticket_uid]]; exists false; reflexivity.
      - left. split; [congruence|eauto]. }
  destruct (Hok2 entry eq_refl) as [-> _]. clear Hok2 Hl2.
  destruct entry as [entry|].
  - (* the ledger delete *)
    apply bind_inv in H as [(u & w3 & H3 & H)|(e & H3 & ->)];
      apply revert_transaction_spec in H3;
      destruct H3 as (He3 & Htk3 & _ & Hs3 & _);
      pose proof (same_env_trans _ _ _ He12 He3) as He123;
      pose proof (sent_app _ _ _ _ _ Hs12 Hs3) as Hs123.
    2:{ split; [exact He123|]. eexists. split; [exact Hs123|].
        right. exists t. repeat split; auto.
        - exists [DELETE_ticket ticket_uid], true. reflexivity.
        - left. split; [congruence|eauto]. }
    (* the ticket delete *)
    apply bind_inv in H as [(u' & w4 & H4 & H)|(e & H4 & ->)];
      apply remove_ticket_spec in H4;
      destruct H4 as (He4 & _ & _ & Hs4 & Hout);
      pose proof (same_env_trans _ _ _ He123 He4) as He1234;
      pose proof (sent_app _ _ _ _ _ Hs123 Hs4) as Hs1234.
    + ret_inv H. destruct Hout as [(_ & Hrm)|(e & ? & _)]; [|discriminate].
      split; [exact He1234|]. eexists. split; [exact Hs1234|].
      right. exists t. repeat split; auto.
      * exists [], true. reflexivity.
      * right. split; [|reflexivity]. now rewrite Htk3, Htk2, Htk1 in Hrm.
    + destruct Hout as [(? & _)|(e' & _ & Htk4)]; [discriminate|].
      split; [exact He1234|]. eexists. split; [exact Hs1234|].
      right. exists t. repeat split; auto.
      * exists [], true. reflexivity.
      * left. split; [congruence|eauto].
  - unfold bind at 1 in H. cbn [ret] in H.
    apply bind_inv in H as [(u' & w4 & H4 & H)|(e & H4 & ->)];
      apply remove_ticket_spec in H4;
      destruct H4 as (He4 & _ & _ & Hs4 & Hout);
      pose proof (same_env_trans _ _ _ He12 He4) as He124;
      pose proof (sent_app _ _ _ _ _ Hs12 Hs4) as Hs124.
    + ret_inv H. destruct Hout as [(_ & Hrm)|(e & ? & _)]; [|discriminate].
      split; [exact He124|]. eexists. split; [exact Hs124|].
      right. exists t. repeat split; auto.
      * exists [], false. reflexivity.
      * right. split; [|reflexivity]. now rewrite Htk2, Htk1 in Hrm.
    + destruct Hout as [(? & _)|(e' & _ & Htk4)]; [discriminate|].
      split; [exact He124|]. eexists. split; [exact Hs124|].
      right. exists t. repeat split; auto.
      * exists [], false. reflexivity.
      * left. split; [congruence|eauto].
Qed.

(** X12. The cancel saga is gated: unless the tickets table holds, under
    the identifier, a PAID ticket of the caller, a cancel changes no table,
    sends at most the ticket lookup, and never answers 204; when it answers,
    the answer is one of the three error replies 404, 403, 400. *)
Theorem cancel_is_gated (ticket_uid : UUID) (user : string) (w : World)
    (r : Res (Gateway.Reply unit)) (w' : World) :
  Gateway.cancel_ticket ticket_uid user w = (r, w') ->
  (forall t, TicketsApp.first_by_uid ticket_uid (tickets_db w) = Some t ->
             t_username t = user -> t_status t <> "PAID") ->
  same_data w w'
  /\ (exists l, sent w w' l /\ (l = [] \/ l = [GET_ticket ticket_uid]))
  /\ forall x, r = Ok x ->
       x = Gateway.JSONResponse "Ticket does not exist" 404
       \/ x = Gateway.JSONResponse "Ticket does not belong to user" 403
       \/ x = Gateway.JSONResponse "Ticket cannot be cancelled" 400.
Proof.
  intros Hrun Hgate. apply cancel_ticket_runs in Hrun.
  destruct Hrun as (_ & l & Hsent & [(Hl & Hsame & Hreply)|(t & Hfind & Hu & Hp & _)]).
  - split; [exact Hsame|]. split; [eauto|].
    intros x Hx. destruct (Hreply x Hx) as [[_ ->]|(t & _ & [[_ ->]|(_ & _ & ->)])]; auto.
  - exfalso. exact (Hgate t Hfind Hu Hp).
Qed.

(** Somebody else's ticket. *)
Lemma cancel_is_gated_witness :
  let w := world_with_ticket in
  let run := Gateway.cancel_ticket 1000%N "eve" w in
  fst run = Ok (Gateway.JSONResponse "Ticket does not belong to user" 403)
  /\ same_data w (snd run)
  /\ (exists l, sent w (snd run) l /\ (l = [] \/ l = [GET_ticket 1000%N])).
Proof.
  intros w run.
  split; [vm_compute; reflexivity|].
  assert (Hrun : Gateway.cancel_ticket 1000%N "eve" w = (fst run, snd run))
    by (vm_compute; reflexivity).
  destruct (cancel_is_gated 1000%N "eve" w (fst run) (snd run) Hrun) as (Hsame & Hl & _).
  - intros t Hfind Huser. vm_compute in Hfind. inversion Hfind; subst t.
    vm_compute in Huser. discriminate.
  - split; assumption.
Defined.

(** X13. The requests of a cancel, in every run and whatever fails: what
    was sent is a prefix of
    [GET ticket; GET ledger entry; DELETE ledger entry; DELETE ticket] or of
    the same sequence without the ledger delete.  So a cancel sends at most
    one ledger delete and at most one ticket delete, the ledger delete goes
    first, and nothing is ever created.  The flights catalog, the clock and
    the identifier source stay as they were. *)
Theorem cancel_requests_in_order (ticket_uid : UUID) (user : string) (w : World) :
  let w' := snd (Gateway.cancel_ticket ticket_uid user w) in
  same_env w w'
  /\ exists l rest revert,
       sent w w' l /\ (l ++ rest)%list = cancel_requests user ticket_uid revert.
Proof.
  intros w'. subst w'.
  destruct (Gateway.cancel_ticket ticket_uid user w) as [r w'] eqn:Hrun. cbn [snd].
  apply cancel_ticket_runs in Hrun.
  destruct Hrun as (Henv & l & Hsent
                    & [([-> | ->] & _)|(t & _ & _ & _ & (rest & revert & Hprefix) & _)]).
  - split; [exact Henv|]. exists [], (cancel_requests user ticket_uid false), false. auto.
  - split; [exact Henv|].
    exists [GET_ticket ticket_uid],
           [GET_privilege_history_entry user ticket_uid; DELETE_ticket ticket_uid], false.
    auto.
  - split; [exact Henv|]. exists l, rest, revert. auto.
Qed.

Lemma purchase_ticket_tickets req user w r w' :
  Gateway.purchase_ticket req user w = (r, w') ->
  tickets_db w' = tickets_db w
  \/ exists request, tickets_db w' = snd (TicketsApp.create_new_ticket request (tickets_db w)).
Proof.
  intros H. apply purchase_ticket_outcome in H.
  inversion H as [r0 w0 l (_ & Htk & _) _ _ _
                 | flight account tx e w0 _ _ _ _ Htk
                 | flight account post e w0 _ _ _ _ Htk
                 | flight account r0 w0 _ _ _ Hcreate _]; subst; auto.
  right. eexists. now rewrite Hcreate.
Qed.

Lemma cancel_requests_in_order_witness :
  let w := world_with_ticket in
  let w' := snd (Gateway.cancel_ticket 1000%N "max" w) in
  same_env w w'
  /\ exists l rest revert,
       sent w w' l /\ (l ++ rest)%list = cancel_requests "max" 1000%N revert.
Proof.
  intros w. exact (cancel_requests_in_order 1000%N "max" w).
Defined.

(** X14. The gateway changes the tickets table through the create and
    delete handlers only: after any run of the purchase saga or of the
    cancel saga, a table built through the tickets API is still one.  On
    such a table every row is PAID, so a cancel never answers 400 "Ticket
    cannot be cancelled". *)
Theorem gateway_keeps_tickets_reachable (w : World) :
  tickets_reachable (tickets_db w) ->
  (forall req user,
      tickets_reachable (tickets_db (snd (Gateway.purchase_ticket req user w))))
  /\ (forall ticket_uid user,
         tickets_reachable (tickets_db (snd (Gateway.cancel_ticket ticket_uid user w)))
         /\ fst (Gateway.cancel_ticket ticket_uid user w)
            <> Ok (Gateway.JSONResponse "Ticket cannot be cancelled" 400)).
Proof.
  intros Hreach. split.
  - intros req user.
    destruct (Gateway.purchase_ticket req user w) as [r w'] eqn:Hrun. cbn [snd].
    apply purchase_ticket_tickets in Hrun. destruct Hrun as [-> | [request ->]].
    + exact Hreach.
    + now apply reach_create.
  - intros ticket_uid user.
    destruct (Gateway.cancel_ticket ticket_uid user w) as [r w'] eqn:Hrun. cbn [fst snd].
    apply cancel_ticket_runs in Hrun.
    destruct (tickets_reachable_invariants _ Hreach) as [_ Hpaid].
    unfold all_paid in Hpaid. rewrite List.Forall_forall in Hpaid.
    destruct Hrun as (_ & l & _
                      & [(_ & (_ & Htk & _) & Hreply)
                        |(t & _ & _ & _ & _ & [(Htk & e & ->)|(Hrm & ->)])]).
    + split; [now rewrite Htk|].
      intros Hr. destruct (Hreply _ Hr) as [[_ Hx]|(t & Hfind & [[_ Hx]|(_ & Hnot & _)])];
        try discriminate.
      apply Hnot, Hpaid.
      unfold TicketsApp.first_by_uid in Hfind. now apply List.find_some in Hfind.
    + split; [now rewrite Htk|discriminate].
    + split; [|discriminate].
      replace (tickets_db w') with (snd (TicketsApp.remove_ticket ticket_uid (tickets_db w)))
        by now rewrite Hrm.
      now apply reach_remove.
Qed.

Lemma gateway_keeps_tickets_reachable_witness :
  let w := demo_world 100%Q 500 [] ∅ in
  let w1 := snd (Gateway.purchase_ticket scenario1_request "max" w) in
  tickets_reachable (tickets_db w1)
  /\ tickets_reachable (tickets_db (snd (Gateway.cancel_ticket 1000%N "max" w1)))
  /\ fst (Gateway.cancel_ticket 1000%N "max" w1)
     <> Ok (Gateway.JSONResponse "Ticket cannot be cancelled" 400).
Proof.
  intros w w1.
  assert (H1 : tickets_reachable (tickets_db w1)).
  { apply (proj1 (gateway_keeps_tickets_reachable w (reach_empty 1))). }
  split; [exact H1|].
  apply (proj2 (gateway_keeps_tickets_reachable w1 H1)).
Defined.




(** X16. The only validation reply of the purchase saga is "User does not
    exist", with an empty error list; when it is given, exactly the flight
    lookup and the account lookup were sent and no table, clock or
    identifier source changed.  The reply "Data validation failed" is never
    given. *)
Theorem purchase_validation_reply
    (req : TicketPurchaseRequest) (user : string) (w : World)
    (message : string) (errors : list ErrorDescription) (w' : World) :
  Gateway.purchase_ticket req user w
  = (Ok (Gateway.ValidationErrorResponse message errors), w') ->
  message = "User does not exist" /\ errors = []
  /\ sent w w' [GET_flight (flightNumber req); GET_privilege user]
  /\ same_data w w'.
Proof.
  unfold Gateway.purchase_ticket. intros H.
  apply bind_inv in H as [(flight & w1 & H1 & H)|(e & _ & ?)]; [|discriminate].
  apply get_flight_by_number_spec in H1.
  destruct H1 as (Hd1 & l1 & Hs1 & _ & Hok1).
  destruct (Hok1 flight eq_refl) as [-> _]. clear Hok1.
  cbn [Gateway.truthy negb] in H.
  apply bind_inv in H as [(found & w2 & H2 & H)|(e & _ & ?)]; [|discriminate].
  apply get_user_privilege_spec in H2.
  destruct H2 as (Hd2 & l2 & Hs2 & _ & Hok2).
  destruct (Hok2 found eq_refl) as [-> _]. clear Hok2.
  destruct found as [account|].
  - exfalso.
    unfold bind, Gateway.datetime_now, Gateway.time_time, Gateway.uuid4,
      Gateway.PrivilegeShortInfo_init, ret, raise in H.
    repeat (break_match; try discriminate).
  - ret_inv H. split; [reflexivity|]. split; [reflexivity|].
    split; [exact (sent_app _ _ _ _ _ Hs1 Hs2)|exact (same_data_trans _ _ _ Hd1 Hd2)].
Qed.

Lemma purchase_validation_reply_witness :
  let w := demo_world 100%Q 500 [] ∅ in
  let w' := snd (Gateway.purchase_ticket scenario1_request "nobody" w) in
  "User does not exist" = "User does not exist" /\ @nil ErrorDescription = []
  /\ sent w w' [GET_flight "AFL031"; GET_privilege "nobody"]
  /\ same_data w w'.
Proof.
  intros w w'.
  assert (Hrun : Gateway.purchase_ticket scenario1_request "nobody" w
                 = (Ok (Gateway.ValidationErrorResponse "User does not exist" []), w'))
    by (vm_compute; reflexivity).
  exact (purchase_validation_reply scenario1_request "nobody" w _ _ w' Hrun).
Defined.

(** X17. GET /tickets/{uid}: every run leaves the tables, the clock and the
    identifier source as they were; a ticket is returned only to its owner,
    with the identifier, flight number and price of the stored row; the
    other answers are 404 "Ticket not found" when the table has no such
    ticket and 403 when the ticket is somebody else's.  The reply "Flight
    information not available" is never given. *)
Theorem ticket_details_only_for_owner
    (ticket_uid : UUID) (user : string) (w : World)
    (r : Res (Gateway.Reply TicketResponse)) (w' : World) :
  Gateway.retrieve_ticket_details ticket_uid user w = (r, w') ->
  same_data w w'
  /\ forall x, r = Ok x ->
       match x with
       | Gateway.Returned resp =>
           exists t,
             TicketsApp.first_by_uid ticket_uid (tickets_db w) = Some t
             /\ t_username t = user
             /\ tr_ticketUid resp = ticket_uid
             /\ tr_flightNumber resp = t_flight_number t
             /\ tr_price resp = t_price t
             /\ parse_TicketStatus (t_status t) = Some (tr_status resp)
       | Gateway.JSONResponse message code =>
           (TicketsApp.first_by_uid ticket_uid (tickets_db w) = None
            /\ message = "Ticket not found" /\ code = 404)
           \/ (exists t,
                  TicketsApp.first_by_uid ticket_uid (tickets_db w) = Some t
                  /\ t_username t <> user
                  /\ message = "Ticket does not belong to user" /\ code = 403)
       end.
Proof.
  unfold Gateway.retrieve_ticket_details, Gateway.create_error_response. intros H.
  apply bind_inv in H as [(found & w1 & H1 & H)|(e & H1 & ->)];
    apply get_ticket_by_uid_spec in H1;
    destruct H1 as (Hd1 & l1 & Hs1 & _ & Hok1).
  2:{ split; [exact Hd1|discriminate]. }
  destruct (Hok1 found eq_refl) as [_ ->]. clear Hok1.
  destruct (TicketsApp.first_by_uid ticket_uid (tickets_db w)) as [t|] eqn:Hfind.
  2:{ ret_inv H. split; [exact Hd1|]. intros x Hx. inversion Hx. auto. }
  assert (Huid : t_ticket_uid t = ticket_uid).
  { unfold TicketsApp.first_by_uid in Hfind. apply List.find_some in Hfind.
    now apply N.eqb_eq. }
  destruct (String.eqb (t_username t) user) eqn:Huser; cbn [negb] in H.
  2:{ ret_inv H. apply String.eqb_neq in Huser. split; [exact Hd1|].
      intros x Hx. inversion Hx. right. exists t. auto. }
  apply String.eqb_eq in Huser.
  apply bind_inv in H as [(flight & w2 & H2 & H)|(e & H2 & ->)];
    apply get_flight_by_number_spec in H2;
    destruct H2 as (Hd2 & _);
    pose proof (same_data_trans _ _ _ Hd1 Hd2) as Hd12.
  2:{ split; [exact Hd12|discriminate]. }
  cbn [Gateway.truthy negb] in H.
  unfold bind, Gateway.TicketResponse_init in H.
  destruct (parse_TicketStatus (t_status t)) as [status|] eqn:Hstatus; ret_inv H.
  - split; [exact Hd12|]. intros x Hx. inversion Hx. exists t. cbn. auto 10.
  - split; [exact Hd12|discriminate].
Qed.

Lemma ticket_details_only_for_owner_witness :
  let w := world_with_ticket in
  fst (Gateway.retrieve_ticket_details 1000%N "eve" w)
  = Ok (Gateway.JSONResponse "Ticket does not belong to user" 403)
  /\ same_data w (snd (Gateway.retrieve_ticket_details 1000%N "max" w))
  /\ exists resp,
      fst (Gateway.retrieve_ticket_details 1000%N "max" w) = Ok (Gateway.Returned resp)
      /\ tr_price resp = 400.
Proof.
  intros w.
  split; [vm_compute; reflexivity|].
  assert (Hrun : exists resp, Gateway.retrieve_ticket_details 1000%N "max" w
                              = (Ok (Gateway.Returned resp),
                                 snd (Gateway.retrieve_ticket_details 1000%N "max" w))).
  { eexists. vm_compute. reflexivity. }
  destruct Hrun as [resp Hrun].
  destruct (ticket_details_only_for_owner 1000%N "max" w _ _ Hrun) as [Hsame Hreply].
  split; [exact Hsame|]. exists resp. split; [now rewrite Hrun|].
  destruct (Hreply _ eq_refl) as (t & Hfind & _ & _ & _ & Hprice & _).
  vm_compute in Hfind. inversion Hfind; subst t. exact Hprice.
Defined.

(** Converting a list of tickets: nothing is changed, and a completed
    conversion has one response per ticket, in order. *)
Lemma convert_all_spec user_tickets w r w' :
  Gateway.convert_all user_tickets w = (r, w') ->
  same_data w w'
  /\ forall rs, r = Ok rs ->
       List.map tr_ticketUid rs = List.map t_ticket_uid user_tickets
       /\ List.map tr_flightNumber rs = List.map t_flight_number user_tickets
       /\ List.map tr_price rs = List.map t_price user_tickets.
Proof.
  revert w r w'. induction user_tickets as [|ticket rest IH]; intros w r w' H.
  - ret_inv H. split; [apply same_data_refl|]. intros rs Hrs. inversion Hrs. auto.
  - cbn [Gateway.convert_all] in H. unfold Gateway.convert_ticket_to_response in H.
    apply bind_inv in H as [(resp & w1 & H1 & H)|(e & H1 & ->)].
    2:{ apply bind_inv in H1 as [(flight & w1 & H1 & H2)|(e' & H1 & _)];
          apply get_flight_by_number_spec in H1; destruct H1 as [Hd1 _];
          [|split; [exact Hd1|discriminate]].
        unfold Gateway.TicketResponse_init in H2.
        destruct (parse_TicketStatus (t_status ticket)); ret_inv H2.
        split; [exact Hd1|discriminate]. }
    apply bind_inv in H1 as [(flight & w0 & H0 & H1)|(e' & _ & ?)]; [|discriminate].
    apply get_flight_by_number_spec in H0. destruct H0 as [Hd0 _].
    unfold Gateway.TicketResponse_init in H1.
    destruct (parse_TicketStatus (t_status ticket)) as [status|]; ret_inv H1.
    apply bind_inv in H as [(rs & w2 & H2 & H)|(e & H2 & ->)];
      apply IH in H2; destruct H2 as [Hd2 Hmaps].
    + ret_inv H. split; [exact (same_data_trans _ _ _ Hd0 Hd2)|].
      intros rs' Hrs. inversion Hrs; subst rs'.
      destruct (Hmaps rs eq_refl) as (Hu & Hf & Hp).
      cbn. now rewrite Hu, Hf, Hp.
    + split; [exact (same_data_trans _ _ _ Hd0 Hd2)|discriminate].
Qed.



Lemma try_except_circuit_open_inv {A} (m h : M A) w r w' :
  try_except_circuit_open m h w = (r, w') ->
  (exists s w1, m w = (Raise (CircuitOpenException s), w1) /\ h w1 = (r, w'))
  \/ (m w = (r, w') /\ forall s, r <> Raise (CircuitOpenException s)).
Proof.
  unfold try_except_circuit_open.
  destruct (m w) as [[a|e] w1]; intros H.
  - right. split; [exact H|]. inversion H. discriminate.
  - destruct e; try (right; split; [exact H|]; inversion H; discriminate).
    left. eauto.
Qed.

(** The two guarded blocks of GET /me. *)
Lemma me_account_block user w r w' :
  try_except_circuit_open
    (user_privilege <- PrivilegesService.get_user_privilege user ;;
     match user_privilege with
     | None => ret (inl (Gateway.create_error_response (A := UserInfoResponse)
                           "User account not found" 404))
     | Some p => ret (inr (Some p))
     end)
    (ret (inr None)) w = (r, w') ->
  same_data w w' /\ forall s, r <> Raise (CircuitOpenException s).
Proof.
  intros H. apply try_except_circuit_open_inv in H.
  destruct H as [(s & w1 & H1 & Hh)|[H1 Hnot]].
  - ret_inv Hh. split; [|discriminate].
    apply bind_inv in H1 as [(found & w1 & H1 & H2)|(e' & H1 & _)];
      apply get_user_privilege_spec in H1.
    + destruct found; ret_inv H2.
    + exact (proj1 H1).
  - split; [|exact Hnot].
    apply bind_inv in H1 as [(found & w1 & H1 & H2)|(e' & H1 & _)];
      apply get_user_privilege_spec in H1.
    + destruct found; ret_inv H2; exact (proj1 H1).
    + exact (proj1 H1).
Qed.

Lemma me_tickets_block user w r w' :
  try_except_circuit_open
    (user_tickets <- TicketsService.get_user_tickets user ;;
     Gateway.convert_all user_tickets)
    (ret []) w = (r, w') ->
  same_data w w' /\ forall s, r <> Raise (CircuitOpenException s).
Proof.
  intros H. apply try_except_circuit_open_inv in H.
  assert (Hframe : forall r1 w1,
             (user_tickets <- TicketsService.get_user_tickets user ;;
              Gateway.convert_all user_tickets) w = (r1, w1) -> same_data w w1).
  { intros r1 w1 H1.
    apply bind_inv in H1 as [(mine & w2 & Ha & Hb)|(e & Ha & _)];
      apply get_user_tickets_spec in Ha.
    - apply convert_all_spec in Hb.
      exact (same_data_trans _ _ _ (proj1 Ha) (proj1 Hb)).
    - exact (proj1 Ha). }
  destruct H as [(s & w1 & H1 & Hh)|[H1 Hnot]].
  - ret_inv Hh. split; [now apply (Hframe _ _ H1)|discriminate].
  - split; [now apply (Hframe _ _ H1)|exact Hnot].
Qed.

(** X19. GET /me never ends with a CircuitOpenException, whichever
    breakers are open, and it never changes a table, the clock or the
    identifier source. *)
Theorem me_never_raises_circuit_open (user : string) (w : World) :
  (forall s, fst (Gateway.get_current_user_profile user w)
             <> Raise (CircuitOpenException s))
  /\ same_data w (snd (Gateway.get_current_user_profile user w)).
Proof.
  destruct (Gateway.get_current_user_profile user w) as [r w'] eqn:Hrun.
  cbn [fst snd]. unfold Gateway.get_current_user_profile in Hrun.
  apply bind_inv in Hrun as [(first & w1 & H1 & H)|(e & H1 & ->)];
    apply me_account_block in H1; destruct H1 as [Hd1 Hnot1].
  2:{ split; [|exact Hd1].
      intros s Hs. apply (Hnot1 s). now inversion Hs. }
  destruct first as [early|user_privilege].
  { ret_inv H. split; [discriminate|exact Hd1]. }
  apply bind_inv in H as [(formatted_tickets & w2 & H2 & H)|(e & H2 & ->)];
    apply me_tickets_block in H2; destruct H2 as [Hd2 Hnot2];
    pose proof (same_data_trans _ _ _ Hd1 Hd2) as Hd12.
  2:{ split; [|exact Hd12].
      intros s Hs. apply (Hnot2 s). now inversion Hs. }
  unfold Gateway.UserInfoResponse_init, Gateway.PrivilegeShortInfo_init, bind in H.
  destruct user_privilege as [p|].
  - destruct (parse_PrivilegeStatus (p_status p)); ret_inv H;
      (split; [discriminate|exact Hd12]).
  - ret_inv H. split; [discriminate|exact Hd12].
Qed.

(** The profile of "max" while the loyalty breaker is open. *)
Lemma me_never_raises_circuit_open_witness :
  let w := demo_world (100 + 1 # 2)%Q 500 []
             {[ PrivilegesService.NAME := opened_at_100 PrivilegesService.NAME ]} in
  (forall s, fst (Gateway.get_current_user_profile "max" w)
             <> Raise (CircuitOpenException s))
  /\ same_data w (snd (Gateway.get_current_user_profile "max" w)).
Proof.
  intros w. exact (me_never_raises_circuit_open "max" w).
Defined.






